(** * Voice Dictator: recording state machine and transcription pipeline

    A shallow embedding of [dictator.py] (the command-line variant, hold key
    Option/Alt, no gates) and [dictator_app.py] (the menu-bar variant, hold
    key Control, duration and energy gates, history of the last ten
    transcriptions).

    The module globals of the Python files become the fields of one record;
    the functions become computations in a state-and-exception monad in
    which, as in Python, the writes made before an exception is raised stay
    in place.  What the program does to the outside world (PortAudio
    streams, worker threads, the transcription engine, the clipboard, the
    synthetic keyboard) is kept as fields of the same record and as a log of
    effects.  Console output, the menu-bar icon and the menu rebuilding
    ([print], [update_icon], [update_menu]) touch none of the modelled state
    and are left out. *)

From Stdlib Require Import Bool List Arith ZArith NArith QArith Lia String Ascii.
Import ListNotations.

Set Implicit Arguments.

(** ** Python strings *)

(** A [str] is a sequence of Unicode code points. *)
Definition str := list N.

(** An ASCII literal as a [str]. *)
Definition lit (s : string) : str :=
  List.map N_of_ascii (list_ascii_of_string s).

(** [str.isspace] on one code point: the characters [str.strip()] removes
    when called without argument. *)
Definition isspace (c : N) : bool :=
  ((9 <=? c) && (c <=? 13) ||
   (28 <=? c) && (c <=? 32) ||
   (c =? 133) || (c =? 160) || (c =? 5760) ||
   (8192 <=? c) && (c <=? 8202) ||
   (c =? 8232) || (c =? 8233) || (c =? 8239) || (c =? 8287) ||
   (c =? 12288))%N.

Fixpoint lstrip (s : str) : str :=
  match s with
  | [] => []
  | c :: r => if isspace c then lstrip r else s
  end.

Definition rstrip (s : str) : str := rev (lstrip (rev s)).

(** [s.strip()] *)
Definition strip (s : str) : str := rstrip (lstrip s).

(** Truth value of a string in [if text:] *)
Definition truthy (s : str) : bool :=
  match s with [] => false | _ :: _ => true end.

(** ** Audio *)

(** A sample is a [float32] in the source.  The model takes exact rationals:
    the two gates below only compare a quotient with a constant, and the
    claims proved about them (a count of samples, an all-zero buffer) hold
    alike in exact and in rounded arithmetic. *)
Definition Sample := Q.
Definition Chunk := list Sample.
Definition Audio := list Sample.

Definition Qltb (a b : Q) : bool := negb (Qle_bool b a).

Definition SAMPLE_RATE : Z := 16000.

(** [np.concatenate(audio_data, axis=0).flatten()] *)
Definition concatenate (chunks : list Chunk) : Audio := List.concat chunks.

(** [len(audio) / SAMPLE_RATE].  The source divides in binary64; the
    quotient is compared with 0.5 only, which binary64 holds exactly, and
    rounding cannot carry a quotient across it. *)
Definition duration (audio : Audio) : Q :=
  inject_Z (Z.of_nat (List.length audio)) / inject_Z SAMPLE_RATE.

Definition sum_squares (audio : Audio) : Q :=
  fold_right (fun x acc => x * x + acc) 0 audio.

(** [np.mean(audio ** 2)].  The source reaches it only after the duration
    gate, with at least 8000 samples; on an empty buffer ([nan] in NumPy)
    the quotient below is 0 and means nothing. *)
Definition mean_square (audio : Audio) : Q :=
  sum_squares audio / inject_Z (Z.of_nat (List.length audio)).

(** [np.sqrt(m) < e] for a threshold [e > 0], written without the square
    root: [sqrt m < e] exactly when [m < e * e]. *)
Definition sqrt_lt (m e : Q) : bool := Qltb m (e * e).

(** ** Keys, exceptions, effects *)

Inductive Key : Type :=
| Key_shift
| Key_alt
| Key_ctrl
| Key_cmd
| KeyCode (c : N).

Definition Key_eqb (a b : Key) : bool :=
  match a, b with
  | Key_shift, Key_shift => true
  | Key_alt, Key_alt => true
  | Key_ctrl, Key_ctrl => true
  | Key_cmd, Key_cmd => true
  | KeyCode c, KeyCode d => N.eqb c d
  | _, _ => false
  end.

Inductive Exn : Type :=
| PortAudioError          (* sd.InputStream(...) could not open a device *)
| NameError               (* the global [stream] read before its first binding *)
| EngineError.            (* model.transcribe raised *)

(** Handle of a PortAudio input stream *)
Definition Handle := nat.

Inductive Effect : Type :=
| StreamStart (h : Handle)          (* sd.InputStream(...) then .start() *)
| StreamClose (h : Handle)          (* .stop() then .close() *)
| ThreadStart                       (* threading.Thread(target=stop_recording).start() *)
| Transcribe (audio : Audio)        (* model.transcribe(audio, fp16=False) *)
| ClipboardCopy (text : str)        (* pyperclip.copy(text) *)
| KbPress (k : Key)                 (* kb.press(k) *)
| KbRelease (k : Key)               (* kb.release(k) *)
| ThreadExcepthook (e : Exn).       (* a worker thread ended by an exception *)

(** ** Program state *)

Record State : Type := mkState {
  (* module globals *)
  recording : bool;
  toggle_mode : bool;
  shift_held : bool;
  audio_data : list Chunk;
  stream : option Handle;            (* [None]: the name is not bound yet *)
  history : list (str * str);        (* deque(maxlen=MAX_HISTORY), leftmost first *)
  (* the world around the module *)
  active : list Handle;              (* streams started and not yet closed *)
  fresh : Handle;                    (* handle of the next stream to be made *)
  threads : nat;                     (* stop threads started and not yet run *)
  listener : bool;                   (* the keyboard listener is running *)
  trace : list Effect                (* effects so far, oldest first *)
}.

(** What the program reads from outside when it runs. *)
Record Env : Type := mkEnv {
  mic_ok : bool;                     (* an input device can be opened *)
  whisper : Audio -> option str;     (* result["text"], [None] when the engine raises *)
  now : str                          (* datetime.now().strftime("%I:%M %p") *)
}.

Definition set_recording (b : bool) (s : State) : State :=
  mkState b (toggle_mode s) (shift_held s) (audio_data s) (stream s) (history s)
          (active s) (fresh s) (threads s) (listener s) (trace s).

Definition set_toggle_mode (b : bool) (s : State) : State :=
  mkState (recording s) b (shift_held s) (audio_data s) (stream s) (history s)
          (active s) (fresh s) (threads s) (listener s) (trace s).

Definition set_shift_held (b : bool) (s : State) : State :=
  mkState (recording s) (toggle_mode s) b (audio_data s) (stream s) (history s)
          (active s) (fresh s) (threads s) (listener s) (trace s).

Definition set_audio_data (d : list Chunk) (s : State) : State :=
  mkState (recording s) (toggle_mode s) (shift_held s) d (stream s) (history s)
          (active s) (fresh s) (threads s) (listener s) (trace s).

Definition set_stream (h : option Handle) (s : State) : State :=
  mkState (recording s) (toggle_mode s) (shift_held s) (audio_data s) h (history s)
          (active s) (fresh s) (threads s) (listener s) (trace s).

Definition set_history (h : list (str * str)) (s : State) : State :=
  mkState (recording s) (toggle_mode s) (shift_held s) (audio_data s) (stream s) h
          (active s) (fresh s) (threads s) (listener s) (trace s).

Definition set_active (a : list Handle) (s : State) : State :=
  mkState (recording s) (toggle_mode s) (shift_held s) (audio_data s) (stream s)
          (history s) a (fresh s) (threads s) (listener s) (trace s).

Definition set_fresh (n : Handle) (s : State) : State :=
  mkState (recording s) (toggle_mode s) (shift_held s) (audio_data s) (stream s)
          (history s) (active s) n (threads s) (listener s) (trace s).

Definition set_threads (n : nat) (s : State) : State :=
  mkState (recording s) (toggle_mode s) (shift_held s) (audio_data s) (stream s)
          (history s) (active s) (fresh s) n (listener s) (trace s).

Definition set_listener (b : bool) (s : State) : State :=
  mkState (recording s) (toggle_mode s) (shift_held s) (audio_data s) (stream s)
          (history s) (active s) (fresh s) (threads s) b (trace s).

Definition emit (e : Effect) (s : State) : State :=
  mkState (recording s) (toggle_mode s) (shift_held s) (audio_data s) (stream s)
          (history s) (active s) (fresh s) (threads s) (listener s) (trace s ++ [e]).

(** ** The monad of Python computations *)

Inductive Result (A : Type) : Type :=
| Return (a : A)
| Raise (e : Exn).

Arguments Return {A} a.
Arguments Raise {A} e.

Definition Py (A : Type) : Type := State -> Result A * State.

Definition ret {A} (a : A) : Py A := fun s => (Return a, s).

Definition raise {A} (e : Exn) : Py A := fun s => (Raise e, s).

Definition bind {A B} (m : Py A) (k : A -> Py B) : Py B :=
  fun s =>
    match m s with
    | (Return a, s') => k a s'
    | (Raise e, s') => (Raise e, s')
    end.

Definition read {A} (f : State -> A) : Py A := fun s => (Return (f s), s).

Definition modify (f : State -> State) : Py unit := fun s => (Return tt, f s).

Declare Scope py_scope.
Delimit Scope py_scope with py.
Notation "x <- m ;; k" := (bind m (fun x => k))
  (at level 61, m at next level, right associativity) : py_scope.
Notation "m ;; k" := (bind m (fun _ => k))
  (at level 61, right associativity) : py_scope.
Open Scope py_scope.

(** None, the value every function of the two files returns. *)
Definition pass : Py unit := ret tt.

(** ** The collaborators: PortAudio, threads, the engine, the sinks *)

(** [sd.InputStream(samplerate=SAMPLE_RATE, channels=1, ...)]: a new stream
    object, or [PortAudioError] when no input device can be opened. *)
Definition InputStream (env : Env) : Py Handle :=
  if mic_ok env
  then h <- read fresh ;; modify (set_fresh (S h)) ;; ret h
  else raise PortAudioError.

(** [stream.start()] *)
Definition Stream_start (h : Handle) : Py unit :=
  a <- read active ;;
  modify (set_active (h :: a)) ;;
  modify (emit (StreamStart h)).

(** Reading the global [stream] *)
Definition global_stream : Py Handle :=
  o <- read stream ;;
  match o with
  | Some h => ret h
  | None => raise NameError
  end.

(** [stream.stop()] then [stream.close()]; both ignore PortAudio errors by
    default, so a stream that is not running is left as it is. *)
Definition Stream_stop_close (h : Handle) : Py unit :=
  a <- read active ;;
  modify (set_active (List.filter (fun x => negb (Nat.eqb x h)) a)) ;;
  modify (emit (StreamClose h)).

(** [threading.Thread(target=stop_recording).start()]: the thread is
    started; its body runs later (see [join_threads]). *)
Definition Thread_start_stop_recording : Py unit :=
  n <- read threads ;;
  modify (set_threads (S n)) ;;
  modify (emit ThreadStart).

(** [model.transcribe(audio, fp16=False)["text"]] *)
Definition transcribe (env : Env) (audio : Audio) : Py str :=
  modify (emit (Transcribe audio)) ;;
  match whisper env audio with
  | Some text => ret text
  | None => raise EngineError
  end.

Definition pyperclip_copy (text : str) : Py unit := modify (emit (ClipboardCopy text)).
Definition kb_press (k : Key) : Py unit := modify (emit (KbPress k)).
Definition kb_release (k : Key) : Py unit := modify (emit (KbRelease k)).

(** The character ['v'] *)
Definition key_v : Key := KeyCode 118.

(** ** Functions shared by the two files *)

(** [start_recording] (dictator.py 38-57, dictator_app.py 64-84) *)
Definition start_recording (env : Env) : Py unit :=
  r <- read recording ;;
  if r then pass
  else
    modify (set_recording true) ;;
    modify (set_audio_data []) ;;
    h <- InputStream env ;;
    modify (set_stream (Some h)) ;;
    Stream_start h.

(** The [callback] closure handed to the stream: [recording] and
    [audio_data] are the module globals, looked up at each call. *)
Definition callback (indata : Chunk) : Py unit :=
  r <- read recording ;;
  if r
  then d <- read audio_data ;; modify (set_audio_data (d ++ [indata]))
  else pass.

(** [on_press] (dictator.py 94-112, dictator_app.py 213-230) *)
Definition on_press (HOLD_KEY : Key) (env : Env) (key : Key) : Py unit :=
  (if Key_eqb key Key_shift then modify (set_shift_held true) else pass) ;;
  if Key_eqb key HOLD_KEY then
    t <- read toggle_mode ;;
    if t then
      modify (set_toggle_mode false) ;;
      Thread_start_stop_recording
    else
      sh <- read shift_held ;;
      if sh then
        modify (set_toggle_mode true) ;;
        start_recording env
      else
        start_recording env
  else pass.

(** [on_release] (dictator.py 115-122, dictator_app.py 233-240) *)
Definition on_release (HOLD_KEY : Key) (key : Key) : Py unit :=
  (if Key_eqb key Key_shift then modify (set_shift_held false) else pass) ;;
  t <- read toggle_mode ;;
  sh <- read shift_held ;;
  if Key_eqb key HOLD_KEY && negb t && negb sh
  then Thread_start_stop_recording
  else pass.

(** ** dictator.py *)

Module Dictator.

Definition HOLD_KEY : Key := Key_alt.

(** [stop_recording] (dictator.py 60-91) *)
Definition stop_recording (env : Env) : Py unit :=
  r <- read recording ;;
  if negb r then pass
  else
    modify (set_recording false) ;;
    h <- global_stream ;;
    Stream_stop_close h ;;
    d <- read audio_data ;;
    match d with
    | [] => pass
    | _ :: _ =>
        let audio := concatenate d in
        result <- transcribe env audio ;;
        let text := strip result in
        if truthy text then
          pyperclip_copy text ;;
          kb_press Key_cmd ;;
          kb_press key_v ;;
          kb_release key_v ;;
          kb_release Key_cmd
        else pass
    end.

End Dictator.

(** ** dictator_app.py *)

Module DictatorApp.

Definition HOLD_KEY : Key := Key_ctrl.
Definition MAX_HISTORY : nat := 10.
Definition MIN_AUDIO_DURATION : Q := 5 # 10.
Definition MIN_AUDIO_ENERGY : Q := 1 # 1000.

(** [history.appendleft(entry)] on a [deque(maxlen=MAX_HISTORY)]: the
    entry goes in front and, when the deque was full, the rightmost entry
    is dropped. *)
Definition history_appendleft (entry : str * str) : Py unit :=
  h <- read history ;;
  modify (set_history (firstn MAX_HISTORY (entry :: h))).

(** [stop_recording] (dictator_app.py 87-137) *)
Definition stop_recording (env : Env) : Py unit :=
  r <- read recording ;;
  if negb r then pass
  else
    modify (set_recording false) ;;
    h <- global_stream ;;
    Stream_stop_close h ;;
    d <- read audio_data ;;
    match d with
    | [] => pass
    | _ :: _ =>
        let audio := concatenate d in
        if Qltb (duration audio) MIN_AUDIO_DURATION then pass
        else
          if sqrt_lt (mean_square audio) MIN_AUDIO_ENERGY then pass
          else
            result <- transcribe env audio ;;
            let text := strip result in
            if truthy text then
              let timestamp := now env in
              history_appendleft (timestamp, text) ;;
              pyperclip_copy text ;;
              kb_press Key_cmd ;;
              kb_press key_v ;;
              kb_release key_v ;;
              kb_release Key_cmd
            else pass
    end.

(** [clear_history] (dictator_app.py 204-206) *)
Definition clear_history : Py unit := modify (set_history []).

End DictatorApp.

(** ** The two programs and their event loop *)

Inductive Program : Type :=
| dictator_py
| dictator_app_py.

Definition HOLD_KEY (p : Program) : Key :=
  match p with
  | dictator_py => Dictator.HOLD_KEY
  | dictator_app_py => DictatorApp.HOLD_KEY
  end.

Definition stop_recording (p : Program) : Env -> Py unit :=
  match p with
  | dictator_py => Dictator.stop_recording
  | dictator_app_py => DictatorApp.stop_recording
  end.

(** What reaches the program from outside. *)
Inductive Event : Type :=
| Press (key : Key)                 (* keyboard.Listener: on_press(key) *)
| Release (key : Key)               (* keyboard.Listener: on_release(key) *)
| Frame (indata : Chunk)            (* PortAudio: callback(indata, ...) *)
| ClearHistory.                     (* menu item "Clear History" (dictator_app.py) *)

(** A callback of the pynput listener.  An exception that leaves the
    callback stops the listener: no later key event is delivered. *)
Definition Listener_callback (handler : Py unit) (s : State) : State :=
  if listener s then
    match handler s with
    | (Return _, s') => s'
    | (Raise _, s') => set_listener false s'
    end
  else s.

(** The body of a [threading.Thread]: an exception that leaves the target
    ends that thread only and is reported by [threading.excepthook]. *)
Definition Thread_run (target : Py unit) (s : State) : State :=
  match target s with
  | (Return _, s') => s'
  | (Raise e, s') => emit (ThreadExcepthook e) s'
  end.

Fixpoint run_threads (target : Py unit) (n : nat) (s : State) : State :=
  match n with
  | O => s
  | S m => run_threads target m (Thread_run target (set_threads m s))
  end.

(** The schedule of the model: the stop threads started while an event was
    handled run to their end before the next event is handled. *)
Definition join_threads (p : Program) (env : Env) (s : State) : State :=
  run_threads (stop_recording p env) (threads s) s.

Definition handle (p : Program) (env : Env) (ev : Event) (s : State) : State :=
  match ev with
  | Press key => Listener_callback (on_press (HOLD_KEY p) env key) s
  | Release key => Listener_callback (on_release (HOLD_KEY p) key) s
  | Frame indata =>
      match active s with
      | [] => s
      | _ :: _ => snd (callback indata s)
      end
  | ClearHistory =>
      match p with
      | dictator_py => s
      | dictator_app_py => snd (DictatorApp.clear_history s)
      end
  end.

Definition deliver (p : Program) (env : Env) (ev : Event) (s : State) : State :=
  join_threads p env (handle p env ev s).

Definition run (p : Program) (evs : list (Env * Event)) (s : State) : State :=
  fold_left (fun s x => deliver p (fst x) (snd x) s) evs s.

(** The globals as the module is loaded, before any event. *)
Definition initial : State :=
  mkState false false false [] None [] [] O O true [].

(** ** Recording mode *)

Inductive RecordingMode : Type :=
| Idle
| Momentary
| Continuous.

(** The mode the two flags encode. *)
Definition current_mode (s : State) : RecordingMode :=
  if recording s then
    if toggle_mode s then Continuous else Momentary
  else Idle.

(** The edges of the state machine as the specification draws it. *)
Definition spec_edge (a b : RecordingMode) : bool :=
  match a, b with
  | Idle, _ => true
  | Momentary, (Momentary | Idle) => true
  | Continuous, (Continuous | Idle) => true
  | _, _ => false
  end.

(** The edges the handlers take: those of [spec_edge] and one more, from
    Momentary to Continuous. *)
Definition code_edge (a b : RecordingMode) : bool :=
  match a, b with
  | Continuous, Momentary => false
  | _, _ => true
  end.

(** Number of capture sessions in progress *)
Definition sessions (s : State) : nat := List.length (active s).

(** ** Observing one call *)

(** The effects logged between two states of one run *)
Definition emitted (s s' : State) : list Effect :=
  skipn (List.length (trace s)) (trace s').

(** The texts put on the clipboard: one per accepted transcription *)
Fixpoint result_events (l : list Effect) : list str :=
  match l with
  | [] => []
  | ClipboardCopy text :: r => text :: result_events r
  | _ :: r => result_events r
  end.

(** The buffers handed to the engine *)
Fixpoint engine_calls (l : list Effect) : list Audio :=
  match l with
  | [] => []
  | Transcribe audio :: r => audio :: engine_calls r
  | _ :: r => engine_calls r
  end.

(** The stop threads started *)
Fixpoint stops_triggered (l : list Effect) : nat :=
  match l with
  | [] => O
  | ThreadStart :: r => S (stops_triggered r)
  | _ :: r => stops_triggered r
  end.

(** What an accepted transcription sends to the sinks, in order: the
    clipboard, then Cmd+V. *)
Definition paste (text : str) : list Effect :=
  [ClipboardCopy text; KbPress Key_cmd; KbPress key_v; KbRelease key_v; KbRelease Key_cmd].

(** The two gates of dictator_app.py on a flat buffer *)
Definition too_short (audio : Audio) : bool :=
  Qltb (duration audio) DictatorApp.MIN_AUDIO_DURATION.

Definition no_sound (audio : Audio) : bool :=
  sqrt_lt (mean_square audio) DictatorApp.MIN_AUDIO_ENERGY.

Definition leading_space (s : str) : bool :=
  match s with
  | [] => false
  | c :: _ => isspace c
  end.

Definition trailing_space (s : str) : bool := leading_space (rev s).

(** A history entry as the claims want it: text not empty, no white space
    at either end. *)
Definition clean_text (text : str) : Prop :=
  text <> [] /\ leading_space text = false /\ trailing_space text = false.

(** The effects that reach the result sinks (clipboard and keyboard) *)
Fixpoint sink_effects (l : list Effect) : list Effect :=
  match l with
  | [] => []
  | ClipboardCopy text :: r => ClipboardCopy text :: sink_effects r
  | KbPress k :: r => KbPress k :: sink_effects r
  | KbRelease k :: r => KbRelease k :: sink_effects r
  | _ :: r => sink_effects r
  end.

(** A buffer passes the gates of the program: dictator.py has none. *)
Definition gates_pass (p : Program) (audio : Audio) : bool :=
  match p with
  | dictator_py => true
  | dictator_app_py => negb (too_short audio) && negb (no_sound audio)
  end.

(** ** Invariant of the event loop *)

(** No stream runs, or one does and it is the one the global [stream]
    names, during a recording. *)
Definition streams_ok (s : State) : Prop :=
  active s = [] \/
  (recording s = true /\ exists h, stream s = Some h /\ active s = [h]).

Definition Inv (s : State) : Prop :=
  threads s = O
  /\ (toggle_mode s = true -> recording s = true)
  /\ streams_ok s.

Definition history_ok (h : list (str * str)) : Prop :=
  Forall (fun entry => clean_text (snd entry)) h
  /\ (List.length h <= DictatorApp.MAX_HISTORY)%nat.

(** ** Sample environments and runs *)

(** A working microphone and an engine that hears "hello world" *)
Definition studio : Env :=
  mkEnv true (fun _ => Some (lit "hello world")) (lit "09:41 AM").

(** No input device *)
Definition no_mic : Env :=
  mkEnv false (fun _ => Some (lit "hello world")) (lit "09:41 AM").

(** An engine that raises *)
Definition broken_engine : Env :=
  mkEnv true (fun _ => None) (lit "09:41 AM").

(** Number of samples in [t] milliseconds at SAMPLE_RATE *)
Definition ms (t : nat) : nat := (16 * t)%nat.

(** [n] samples of amplitude 1 *)
Definition loud (n : nat) : Chunk := repeat 1 n.

(** [n] samples of silence *)
Definition silence (n : nat) : Chunk := repeat 0 n.

(** The hold key of dictator_app.py is down and one chunk has arrived. *)
Definition holding (indata : Chunk) : State :=
  run dictator_app_py [(studio, Press Key_ctrl); (studio, Frame indata)] initial.

(** The same in dictator.py *)
Definition holding_alt (indata : Chunk) : State :=
  run dictator_py [(studio, Press Key_alt); (studio, Frame indata)] initial.


(** ** Counting in the log *)

(** Streams started *)
Fixpoint streams_started (l : list Effect) : nat :=
  match l with
  | [] => O
  | StreamStart _ :: r => S (streams_started r)
  | _ :: r => streams_started r
  end.

(** Streams closed *)
Fixpoint streams_closed (l : list Effect) : nat :=
  match l with
  | [] => O
  | StreamClose _ :: r => S (streams_closed r)
  | _ :: r => streams_closed r
  end.

(** The exceptions that ended a thread *)
Fixpoint thread_errors (l : list Effect) : list Exn :=
  match l with
  | [] => []
  | ThreadExcepthook e :: r => e :: thread_errors r
  | _ :: r => thread_errors r
  end.

(** The chunks [cs] as they arrive from the stream, one event each *)
Definition frames (env : Env) (cs : list Chunk) : list (Env * Event) :=
  List.map (fun c => (env, Frame c)) cs.

(** What [stop_recording] hands to the engine when the chunks are [cs] *)
Definition handed_over (p : Program) (cs : list Chunk) : list Audio :=
  match cs with
  | [] => []
  | _ :: _ => if gates_pass p (concatenate cs) then [concatenate cs] else []
  end.

(** What the log of a run has to satisfy. *)
Definition trace_ok (s : State) : Prop :=
  streams_started (trace s) = (streams_closed (trace s) + sessions s)%nat
  /\ (List.length (result_events (trace s)) <= List.length (engine_calls (trace s)))%nat
  /\ (List.length (engine_calls (trace s)) <= streams_closed (trace s))%nat
  /\ Forall (fun e => e = EngineError) (thread_errors (trace s)).

(** While the listener runs, a recording has its stream. *)
Definition Inv_listener (s : State) : Prop :=
  threads s = O
  /\ (toggle_mode s = true -> recording s = true)
  /\ ((active s = [] /\ (recording s = true -> listener s = false))
      \/ (recording s = true /\ listener s = true
          /\ exists h, stream s = Some h /\ active s = [h])).
(** ** The menu bar of dictator_app.py *)

(** The icon and the menu, which the model above leaves out, and the
    functions of dictator_app.py that touch them. *)

(** [text[:n] + "..." if len(text) > n else text] *)
Definition ellipsis (n : nat) (text : str) : str :=
  if (n <? List.length text)%nat then firstn n text ++ lit "..." else text.

(** [a == b] on strings *)
Fixpoint str_eqb (a b : str) : bool :=
  match a, b with
  | [], [] => true
  | x :: a', y :: b' => N.eqb x y && str_eqb a' b'
  | _, _ => false
  end.

(** [s * n] *)
Definition times (s : str) (n : nat) : str := List.concat (repeat s n).

(** [sep.join(l)] *)
Fixpoint join (sep : str) (l : list str) : str :=
  match l with
  | [] => []
  | x :: r =>
      match r with
      | [] => x
      | _ :: _ => x ++ sep ++ join sep r
      end
  end.

(** Truth value of a deque in [if history:] *)
Definition nonempty {A} (l : list A) : bool :=
  match l with [] => false | _ :: _ => true end.

Module MenuBar.

(** The function a menu item calls when it is chosen *)
Inductive Callback : Type :=
| Cb_copy (text : str)              (* make_copy_callback(text) *)
| Cb_open_in_textedit
| Cb_clear_history
| Cb_quit_app.

Inductive MenuItem : Type :=
| Item (label : str) (callback : Callback)   (* rumps.MenuItem(label, callback=...) *)
| separator.                                 (* rumps.separator *)

(** The [rumps.App]: its title in the menu bar and the items of its menu
    as the menu bar shows them, in the order they were added since the
    last [clear()]. *)
Record App : Type := mkApp {
  title : str;
  menu : list MenuItem
}.

(** What the menu callbacks do outside the process *)
Inductive Desktop : Type :=
| Notification (head subtitle message : str)   (* rumps.notification(...) *)
| TempFile (content : str)                     (* a temporary .txt file written *)
| OpenTextEdit                                 (* subprocess.run(["open", "-a", "TextEdit", path]) *)
| QuitApplication.                             (* rumps.quit_application() *)

(** The globals of dictator_app.py with the global [app] and the desktop *)
Record Gui : Type := mkGui {
  core : State;
  app : option App;                 (* [None] until main binds it *)
  desktop : list Desktop            (* oldest first *)
}.

Definition set_core (s : State) (g : Gui) : Gui := mkGui s (app g) (desktop g).
Definition set_app (a : option App) (g : Gui) : Gui := mkGui (core g) a (desktop g).
Definition show (d : Desktop) (g : Gui) : Gui :=
  mkGui (core g) (app g) (desktop g ++ [d]).

(** Computations on [Gui], with the exceptions of [Py] *)
Definition PyG (A : Type) : Type := Gui -> Result A * Gui.

Definition gret {A} (a : A) : PyG A := fun g => (Return a, g).

Definition gbind {A B} (m : PyG A) (k : A -> PyG B) : PyG B :=
  fun g =>
    match m g with
    | (Return a, g') => k a g'
    | (Raise e, g') => (Raise e, g')
    end.

Definition gread {A} (f : Gui -> A) : PyG A := fun g => (Return (f g), g).

Definition gmodify (f : Gui -> Gui) : PyG unit := fun g => (Return tt, f g).

(** A computation on the globals of the core, run in place *)
Definition lift {A} (m : Py A) : PyG A :=
  fun g =>
    match m (core g) with
    | (r, s') => (r, set_core s' g)
    end.

Definition gpass : PyG unit := gret tt.

Declare Scope gui_scope.
Delimit Scope gui_scope with gui.
Notation "x <- m ;; k" := (gbind m (fun x => k))
  (at level 61, m at next level, right associativity) : gui_scope.
Notation "m ;; k" := (gbind m (fun _ => k))
  (at level 61, right associativity) : gui_scope.
Open Scope gui_scope.

(** [for x in l: body(x)] *)
Fixpoint for_each {A} (l : list A) (body : A -> PyG unit) : PyG unit :=
  match l with
  | [] => gpass
  | x :: r => body x ;; for_each r body
  end.

(** The three operations on the app object, each used under [if app:] *)
Definition on_app (f : App -> App) (g : Gui) : Gui :=
  match app g with
  | Some a => set_app (Some (f a)) g
  | None => g
  end.

(** [app.title = t] *)
Definition app_set_title (t : str) : PyG unit :=
  gmodify (on_app (fun a => mkApp t (menu a))).

(** [app.menu.clear()] *)
Definition app_menu_clear : PyG unit :=
  gmodify (on_app (fun a => mkApp (title a) [])).

(** [app.menu.add(item)] *)
Definition app_menu_add (item : MenuItem) : PyG unit :=
  gmodify (on_app (fun a => mkApp (title a) (menu a ++ [item]))).

(** [update_icon] (dictator_app.py 140-145) *)
Definition update_icon (state : str) : PyG unit :=
  a <- gread app ;;
  match a with
  | Some _ =>
      if str_eqb state (lit "recording")
      then app_set_title (lit "rec")
      else app_set_title (lit "mic")
  | None => gpass
  end.

(** [update_menu] (dictator_app.py 148-165) *)
Definition update_menu : PyG unit :=
  a <- gread app ;;
  match a with
  | None => gpass
  | Some _ =>
      app_menu_clear ;;
      h <- gread (fun g => history (core g)) ;;
      (if nonempty h then
         for_each h (fun entry : str * str =>
           let (timestamp, text) := entry in
           let display_text := ellipsis 50 text in
           app_menu_add (Item (timestamp ++ lit "  " ++ display_text) (Cb_copy text))) ;;
         app_menu_add separator ;;
         app_menu_add (Item (lit "Open in TextEdit") Cb_open_in_textedit)
       else gpass) ;;
      app_menu_add (Item (lit "Clear History") Cb_clear_history) ;;
      app_menu_add separator ;;
      app_menu_add (Item (lit "Quit") Cb_quit_app)
  end.

(** The [copy_callback] that [make_copy_callback(text)] returns
    (dictator_app.py 168-172) *)
Definition copy_callback (text : str) : PyG unit :=
  lift (pyperclip_copy text) ;;
  gmodify (show (Notification (lit "Voice Dictator") (lit "Copied!")
                              (ellipsis 50 text))).

(** The list [lines] of [open_in_textedit]; [today] is
    [datetime.now().strftime('%B %d, %Y')]. *)
Definition textedit_lines (today : str) (h : list (str * str)) : list str :=
  let lines : list str := [] in
  let lines := lines ++ [times (lit "=") 50] in
  let lines := lines ++ [lit "  VOICE DICTATOR - History"] in
  let lines := lines ++ [lit "  " ++ today] in
  let lines := lines ++ [times (lit "=") 50] in
  let lines := lines ++ [[]] in
  fold_left
    (fun (lines : list str) (entry : str * str) =>
       let (timestamp, text) := entry in
       let lines := lines ++ [lit "[" ++ timestamp ++ lit "]"] in
       let lines := lines ++ [text] in
       let lines := lines ++ [[]] in
       let lines := lines ++ [times (lit "-") 30] in
       lines ++ [[]])
    h lines.

(** [open_in_textedit] (dictator_app.py 175-201) *)
Definition open_in_textedit (today : str) : PyG unit :=
  h <- gread (fun g => history (core g)) ;;
  if negb (nonempty h) then gpass
  else
    let lines := textedit_lines today h in
    let content := join [10%N] lines in
    gmodify (show (TempFile content)) ;;
    gmodify (show OpenTextEdit).

(** [clear_history] (dictator_app.py 204-206) *)
Definition clear_history : PyG unit :=
  lift DictatorApp.clear_history ;;
  update_menu.

(** [rumps.quit_application()]: the process ends, and with it the key
    listener, the streams and the threads not yet run. *)
Definition quit_application : PyG unit :=
  gmodify (show QuitApplication) ;;
  lift (modify (set_listener false)) ;;
  lift (modify (set_active [])) ;;
  lift (modify (set_threads O)).

(** [quit_app] (dictator_app.py 209-210) *)
Definition quit_app : PyG unit := quit_application.

(** [start_recording] (dictator_app.py 64-84), with the icon *)
Definition start_recording (env : Env) : PyG unit :=
  r <- gread (fun g => recording (core g)) ;;
  if r then gpass
  else
    lift (modify (set_recording true)) ;;
    lift (modify (set_audio_data [])) ;;
    update_icon (lit "recording") ;;
    h <- lift (InputStream env) ;;
    lift (modify (set_stream (Some h))) ;;
    lift (Stream_start h).

(** [stop_recording] (dictator_app.py 87-137), with the icon and the menu *)
Definition stop_recording (env : Env) : PyG unit :=
  r <- gread (fun g => recording (core g)) ;;
  if negb r then gpass
  else
    lift (modify (set_recording false)) ;;
    h <- lift global_stream ;;
    lift (Stream_stop_close h) ;;
    update_icon (lit "idle") ;;
    d <- gread (fun g => audio_data (core g)) ;;
    match d with
    | [] => gpass
    | _ :: _ =>
        let audio := concatenate d in
        if Qltb (duration audio) DictatorApp.MIN_AUDIO_DURATION then gpass
        else
          if sqrt_lt (mean_square audio) DictatorApp.MIN_AUDIO_ENERGY then gpass
          else
            result <- lift (transcribe env audio) ;;
            let text := strip result in
            if truthy text then
              let timestamp := now env in
              lift (DictatorApp.history_appendleft (timestamp, text)) ;;
              update_menu ;;
              lift (pyperclip_copy text) ;;
              lift (kb_press Key_cmd) ;;
              lift (kb_press key_v) ;;
              lift (kb_release key_v) ;;
              lift (kb_release Key_cmd)
            else gpass
    end.

(** [on_press] (dictator_app.py 213-230) *)
Definition on_press (env : Env) (key : Key) : PyG unit :=
  (if Key_eqb key Key_shift then lift (modify (set_shift_held true)) else gpass) ;;
  if Key_eqb key DictatorApp.HOLD_KEY then
    t <- gread (fun g => toggle_mode (core g)) ;;
    if t then
      lift (modify (set_toggle_mode false)) ;;
      lift Thread_start_stop_recording
    else
      sh <- gread (fun g => shift_held (core g)) ;;
      if sh then
        lift (modify (set_toggle_mode true)) ;;
        start_recording env
      else
        start_recording env
  else gpass.

(** [on_release] (dictator_app.py 233-240): it touches neither the icon
    nor the menu. *)
Definition on_release (key : Key) : PyG unit :=
  lift (on_release DictatorApp.HOLD_KEY key).

(** [DictatorApp.__init__] (dictator_app.py 243-246): the object is made
    with the title "mic", no Quit button and an empty menu; [update_menu]
    then looks at the global [app], which does not name this object yet. *)
Definition DictatorApp (g : Gui) : Result App * Gui :=
  let self := mkApp (lit "mic") [] in
  (update_menu ;; gret self) g.

(** [app = DictatorApp()] in [main] (dictator_app.py 271) *)
Definition main_app : PyG unit :=
  self <- DictatorApp ;;
  gmodify (set_app (Some self)).

(** What a chosen item runs *)
Definition run_callback (today : str) (cb : Callback) : PyG unit :=
  match cb with
  | Cb_copy text => copy_callback text
  | Cb_open_in_textedit => open_in_textedit today
  | Cb_clear_history => clear_history
  | Cb_quit_app => quit_app
  end.

(** What reaches the menu-bar program: keys, audio, and the choice of the
    [i]-th item of the menu. *)
Inductive UiEvent : Type :=
| KeyDown (key : Key)
| KeyUp (key : Key)
| Audio (indata : Chunk)
| Click (i : nat).

(** The event of the core model behind a key or audio event *)
Definition to_event (ev : UiEvent) : option Event :=
  match ev with
  | KeyDown key => Some (Press key)
  | KeyUp key => Some (Release key)
  | Audio indata => Some (Frame indata)
  | Click _ => None
  end.

Definition Listener_callback (handler : PyG unit) (g : Gui) : Gui :=
  if listener (core g) then
    match handler g with
    | (Return _, g') => g'
    | (Raise _, g') => set_core (set_listener false (core g')) g'
    end
  else g.

Definition Thread_run (target : PyG unit) (g : Gui) : Gui :=
  match target g with
  | (Return _, g') => g'
  | (Raise e, g') => set_core (emit (ThreadExcepthook e) (core g')) g'
  end.

Fixpoint run_threads (target : PyG unit) (n : nat) (g : Gui) : Gui :=
  match n with
  | O => g
  | S m => run_threads target m (Thread_run target (set_core (set_threads m (core g)) g))
  end.

(** The schedule of the model, as in the core: the stop threads started
    while an event was handled run to their end before the next event is
    handled. *)
Definition join_threads (env : Env) (g : Gui) : Gui :=
  run_threads (stop_recording env) (threads (core g)) g.

Definition handle (env : Env) (today : str) (ev : UiEvent) (g : Gui) : Gui :=
  match ev with
  | KeyDown key => Listener_callback (on_press env key) g
  | KeyUp key => Listener_callback (on_release key) g
  | Audio indata =>
      match active (core g) with
      | [] => g
      | _ :: _ => snd (lift (callback indata) g)
      end
  | Click i =>
      match app g with
      | None => g
      | Some a =>
          match nth_error (menu a) i with
          | Some (Item _ cb) => snd (run_callback today cb g)
          | Some separator => g
          | None => g
          end
      end
  end.

(** One event under that schedule *)
Definition deliver (env : Env) (today : str) (ev : UiEvent) (g : Gui) : Gui :=
  join_threads env (handle env today ev g).

(** The program has quit. *)
Definition quit_called (g : Gui) : bool :=
  existsb (fun d => match d with QuitApplication => true | _ => false end)
          (desktop g).

(** One event of a run: once the program has quit, none is handled. *)
Definition step (g : Gui) (x : Env * str * UiEvent) : Gui :=
  if quit_called g then g
  else deliver (fst (fst x)) (snd (fst x)) (snd x) g.

Definition run (evs : list (Env * str * UiEvent)) (g : Gui) : Gui :=
  fold_left step evs g.

(** The module as it is loaded: no app yet *)
Definition loaded : Gui := mkGui initial None [].

(** [main] (dictator_app.py 266-272): the listener thread is started, the
    events [before] are handled while the global [app] is still unbound,
    then [app = DictatorApp()]. *)
Definition launch (before : list (Env * str * UiEvent)) : Gui :=
  snd (main_app (run before loaded)).

(** The item that shows one entry of the history *)
Definition entry_item (entry : str * str) : MenuItem :=
  Item (fst entry ++ lit "  " ++ ellipsis 50 (snd entry)) (Cb_copy (snd entry)).

(** The items below the entries *)
Definition footer (h : list (str * str)) : list MenuItem :=
  (if nonempty h
   then [separator; Item (lit "Open in TextEdit") Cb_open_in_textedit]
   else [])
  ++ [Item (lit "Clear History") Cb_clear_history; separator;
      Item (lit "Quit") Cb_quit_app].

(** The menu that shows the history [h] *)
Definition menu_of (h : list (str * str)) : list MenuItem :=
  List.map entry_item h ++ footer h.

(** The five lines of one entry in TextEdit *)
Definition entry_lines (entry : str * str) : list str :=
  [lit "[" ++ fst entry ++ lit "]"; snd entry; []; times (lit "-") 30; []].

Close Scope gui_scope.

End MenuBar.
(** ** Invariant of the menu-bar program *)

(** The title that goes with the flag [recording] *)
Definition icon_of (s : State) : str :=
  if recording s then lit "rec" else lit "mic".

(** Number of texts put on the clipboard so far *)
Definition copies (s : State) : nat := List.length (result_events (trace s)).

(** The title is the one of the flag, or, when [stale] is set, still the
    "mic" the app was made with during a recording. *)
Definition title_ok (stale : bool) (s : State) (t : str) : Prop :=
  t = icon_of s \/ (stale = true /\ recording s = true /\ t = lit "mic").

(** The menu that goes with the log and the history when the app was made
    after [n0] copies: nothing before the next copy, the history
    afterwards. *)
Definition shown_menu (n0 : nat) (s : State) : list MenuBar.MenuItem :=
  if (copies s =? n0)%nat then [] else MenuBar.menu_of (history s).

(** [ui] is [None] while the global [app] is unbound, and otherwise holds
    whether a recording was on when it was bound and the number of copies
    made until then. *)
Definition Gui_ok (ui : option (bool * nat)) (g : MenuBar.Gui) : Prop :=
  Inv_listener (MenuBar.core g)
  /\ match ui with
     | None => MenuBar.app g = None
     | Some (stale, n0) =>
         exists t,
           MenuBar.app g = Some (MenuBar.mkApp t (shown_menu n0 (MenuBar.core g)))
           /\ title_ok stale (MenuBar.core g) t
           /\ (n0 <= copies (MenuBar.core g))%nat
     end.

(** Between the handler and the stop thread it started *)
Definition Gui_mid (ui : option (bool * nat)) (g : MenuBar.Gui) : Prop :=
  (threads (MenuBar.core g) = O /\ Gui_ok ui g)
  \/ (threads (MenuBar.core g) = 1%nat
      /\ toggle_mode (MenuBar.core g) = false
      /\ listener (MenuBar.core g) = true
      /\ Gui_ok ui (MenuBar.set_core (set_threads O (MenuBar.core g)) g)).
(** ** Sample runs of the extras *)

(** dictator.py: hold key down, one chunk, hold key up *)
Definition one_take (env : Env) : list (Env * Event) :=
  [(env, Press Key_alt); (env, Frame [1]); (env, Release Key_alt)].

(** The menu-bar app with one entry in the history and the menu not yet
    built *)
Definition one_entry : MenuBar.Gui :=
  MenuBar.mkGui (set_history [(lit "09:41 AM", lit "hello world")] initial)
                (Some (MenuBar.mkApp (lit "mic") [])) [].

(** The menu-bar app with an empty history and its menu built *)
Definition no_entry : MenuBar.Gui :=
  MenuBar.mkGui initial (Some (MenuBar.mkApp (lit "mic") (MenuBar.menu_of []))) [].

(** * Properties *)

(** ** Strings *)

Lemma lstrip_split (s : str) :
  exists ws, s = ws ++ lstrip s /\ forallb isspace ws = true.
Proof.
  induction s as [|c r [ws [E W]]]; simpl.
  - exists []. split; reflexivity.
  - destruct (isspace c) eqn:C.
    + exists (c :: ws). simpl. rewrite C, W. split; [f_equal; exact E | reflexivity].
    + exists []. split; reflexivity.
Qed.

Lemma lstrip_no_leading (s : str) : leading_space (lstrip s) = false.
Proof.
  induction s as [|c r IH]; simpl; [reflexivity|].
  destruct (isspace c) eqn:C; [exact IH | simpl; exact C].
Qed.

Lemma lstrip_all_space (s : str) : forallb isspace s = true -> lstrip s = [].
Proof.
  induction s as [|c r IH]; simpl; [reflexivity|].
  intros H. apply andb_true_iff in H. destruct H as [C R].
  rewrite C. apply IH, R.
Qed.

Lemma lstrip_fixed (s : str) : leading_space s = false -> lstrip s = s.
Proof.
  destruct s as [|c r]; simpl; [reflexivity|]. intros C. rewrite C. reflexivity.
Qed.

(** [strip] cuts a run of white space off each end. *)
Lemma strip_split (s : str) :
  exists l r, s = l ++ strip s ++ r
              /\ forallb isspace l = true /\ forallb isspace r = true.
Proof.
  destruct (lstrip_split s) as [l [El Wl]].
  destruct (lstrip_split (rev (lstrip s))) as [r [Er Wr]].
  exists l, (rev r). split; [|split].
  - rewrite El at 1. f_equal. unfold strip, rstrip.
    rewrite <- rev_app_distr, <- Er, rev_involutive. reflexivity.
  - exact Wl.
  - rewrite forallb_forall in *. intros x Hx. apply Wr, in_rev, Hx.
Qed.

Lemma strip_no_trailing (s : str) : trailing_space (strip s) = false.
Proof.
  unfold trailing_space, strip, rstrip. rewrite rev_involutive.
  apply lstrip_no_leading.
Qed.

Lemma strip_no_leading (s : str) : leading_space (strip s) = false.
Proof.
  unfold strip, rstrip.
  pose proof (lstrip_no_leading s) as L.
  destruct (lstrip_split (rev (lstrip s))) as [ws [E _]].
  remember (lstrip s) as t eqn:T. clear T.
  assert (E' : t = rev (lstrip (rev t)) ++ rev ws).
  { rewrite <- rev_app_distr, <- E, rev_involutive. reflexivity. }
  destruct (rev (lstrip (rev t))) as [|c r]; [reflexivity|].
  rewrite E' in L. simpl in L |- *. exact L.
Qed.

Lemma strip_all_space (s : str) : forallb isspace s = true -> strip s = [].
Proof.
  intros H. unfold strip. rewrite (lstrip_all_space s H). reflexivity.
Qed.

Lemma truthy_clean (s : str) : truthy (strip s) = true -> clean_text (strip s).
Proof.
  intros T. split; [|split].
  - destruct (strip s); [discriminate T | discriminate].
  - apply strip_no_leading.
  - apply strip_no_trailing.
Qed.

(** ** Sample runs *)

Example strip_hello :
  strip (lit "  hello world" ++ [10%N]) = lit "hello world".
Proof. reflexivity. Qed.

Example strip_blank : strip (lit "   ") = [].
Proof. reflexivity. Qed.

Example too_short_300ms : too_short (loud (ms 300)) = true.
Proof. vm_compute. reflexivity. Qed.

Example too_short_500ms : too_short (loud (ms 500)) = false.
Proof. vm_compute. reflexivity. Qed.

(** Hold key down, one second of sound, hold key up: the mode goes
    Momentary, then Idle; the engine is called once, with 16000 samples,
    and its text is pasted and stored. *)
Example momentary_scenario :
  let s1 := deliver dictator_app_py studio (Press Key_ctrl) initial in
  let s2 := deliver dictator_app_py studio (Frame (loud (ms 1000))) s1 in
  let s3 := deliver dictator_app_py studio (Release Key_ctrl) s2 in
  current_mode s1 = Momentary
  /\ current_mode s3 = Idle
  /\ List.map (@List.length Sample) (engine_calls (trace s3)) = [ms 1000]
  /\ sink_effects (trace s3) = paste (lit "hello world")
  /\ history s3 = [(lit "09:41 AM", lit "hello world")]
  /\ sessions s3 = O.
Proof. vm_compute. repeat split. Qed.

(** The same with no microphone: the press raises in the listener, which
    stops; [recording] stays set with no stream behind it. *)
Example no_mic_scenario :
  let s1 := deliver dictator_app_py no_mic (Press Key_ctrl) initial in
  listener s1 = false /\ recording s1 = true /\ sessions s1 = O.
Proof. vm_compute. repeat split. Qed.

(** ** Running one call *)

Lemma emitted_app (s s' : State) (l : list Effect) :
  trace s' = trace s ++ l -> emitted s s' = l.
Proof.
  intros E. unfold emitted. rewrite E, skipn_app, skipn_all, Nat.sub_diag.
  reflexivity.
Qed.

(** Evaluation of a call on a state given field by field: call by value,
    so that a state is built once before the next statement reads it. *)
Ltac py_eval :=
  cbv beta iota zeta delta
    [DictatorApp.stop_recording Dictator.stop_recording stop_recording
     start_recording on_press on_release callback
     DictatorApp.history_appendleft DictatorApp.clear_history
     InputStream Stream_start global_stream Stream_stop_close
     Thread_start_stop_recording transcribe pyperclip_copy kb_press kb_release
     pass bind read modify ret raise
     emit set_recording set_toggle_mode set_shift_held set_audio_data
     set_stream set_history set_active set_fresh set_threads set_listener
     recording toggle_mode shift_held audio_data stream history active fresh
     threads listener trace
     Listener_callback Thread_run run_threads join_threads handle deliver
     HOLD_KEY Dictator.HOLD_KEY DictatorApp.HOLD_KEY Key_eqb
     current_mode sessions
     fst snd negb andb orb].

Ltac py_state s :=
  destruct s as [rec tog shift data strm hist act nxt thr lsn tr].

(** Case analysis on what blocks the evaluation of [stop_recording]: the
    two gates, the engine, the truth value of the text. *)
Ltac py_cases :=
  py_eval;
  repeat (match goal with
          | |- context [if Qltb ?a ?b then _ else _] => destruct (Qltb a b) eqn:?
          | |- context [if sqrt_lt ?a ?b then _ else _] => destruct (sqrt_lt a b) eqn:?
          | |- context [match whisper ?e ?a with _ => _ end] => destruct (whisper e a) eqn:?
          | |- context [if truthy ?t then _ else _] => destruct (truthy t) eqn:?
          | |- context [if mic_ok ?e then _ else _] => destruct (mic_ok e) eqn:?
          end; py_eval).

Lemma emitted_none (s s' : State) : trace s' = trace s -> emitted s s' = [].
Proof.
  intros E. apply emitted_app. rewrite app_nil_r. exact E.
Qed.

(** Replaces [emitted s s'] by the effects appended to the log. *)
Ltac emitted_eval :=
  repeat match goal with
         | |- context [emitted ?a ?b] =>
             first
               [ rewrite (@emitted_none a b) by reflexivity
               | erewrite (@emitted_app a b)
                   by (cbn [trace]; rewrite <- ?app_assoc; reflexivity) ]
         end;
  cbn [app result_events engine_calls stops_triggered].

(** ** The gates *)

Lemma Qltb_lt (a b : Q) : Qltb a b = true <-> a < b.
Proof.
  unfold Qltb. rewrite negb_true_iff. split.
  - intros H. apply Qnot_le_lt. intros L. apply Qle_bool_iff in L. congruence.
  - intros H. destruct (Qle_bool b a) eqn:E; [|reflexivity].
    apply Qle_bool_iff in E. exfalso. exact (Qlt_not_le _ _ H E).
Qed.

(** The duration gate counts samples: less than half a second is less than
    8000 samples at 16 kHz. *)
Lemma too_short_count (audio : Audio) :
  too_short audio = true <-> (Z.of_nat (List.length audio) < 8000)%Z.
Proof.
  unfold too_short. rewrite Qltb_lt.
  unfold duration, DictatorApp.MIN_AUDIO_DURATION, SAMPLE_RATE, Qlt, Qdiv, Qmult, Qinv, inject_Z.
  cbn [Qnum Qden]. lia.
Qed.

Lemma sum_squares_zero (audio : Audio) :
  Forall (fun x => x == 0) audio -> sum_squares audio == 0.
Proof.
  induction 1 as [|x r Hx _ IH]; cbn [sum_squares fold_right]; [reflexivity|].
  fold (sum_squares r). rewrite Hx, IH. reflexivity.
Qed.

Lemma silence_no_sound (audio : Audio) :
  Forall (fun x => x == 0) audio -> no_sound audio = true.
Proof.
  intros Z. unfold no_sound, sqrt_lt. apply Qltb_lt.
  unfold mean_square. rewrite (sum_squares_zero Z).
  unfold Qdiv. rewrite Qmult_0_l. reflexivity.
Qed.

(** ** The pipeline of dictator_app.py *)

(** C6: in dictator_app.py a buffer that lasts less than MIN_AUDIO_DURATION
    is rejected whatever its samples are: nothing reaches the engine, the
    clipboard or the history. *)
Theorem duration_gate_rejects (env : Env) (s : State) :
  duration (concatenate (audio_data s)) < DictatorApp.MIN_AUDIO_DURATION ->
  let s' := snd (DictatorApp.stop_recording env s) in
  result_events (emitted s s') = []
  /\ engine_calls (emitted s s') = []
  /\ history s' = history s
  /\ recording s' = false.
Proof.
  intros D. apply Qltb_lt in D.
  py_state s. cbn [audio_data] in D.
  destruct rec, strm, data; py_eval; try rewrite D; py_eval; emitted_eval;
    repeat apply conj; reflexivity.
Qed.

(** ** The event loop *)

(** Closes one case of [deliver_step] once the step has been evaluated:
    the three parts of the invariant, the edge, the way into Continuous. *)
Ltac close_step :=
  repeat apply conj;
  [ reflexivity
  | discriminate || reflexivity
  | (left; reflexivity)
    || (right; split; [reflexivity | eexists; split; reflexivity])
  | reflexivity
  | try discriminate; intros; split; reflexivity ].

Ltac eval_step :=
  py_cases; cbn [filter]; rewrite ?Nat.eqb_refl; cbn [negb].

(** One event, from a state of the invariant: by cases on the program, the
    event, the flags and what the stop thread meets. *)
Lemma deliver_step p env ev s :
  Inv s ->
  let s' := deliver p env ev s in
  Inv s'
  /\ code_edge (current_mode s) (current_mode s') = true
  /\ (current_mode s = Momentary -> current_mode s' = Continuous ->
      ev = Press (HOLD_KEY p) /\ shift_held s = true).
Proof.
  py_state s. unfold Inv, streams_ok.
  cbn [threads toggle_mode recording active stream].
  intros [-> [T A]].
  destruct A as [-> | [-> [h [-> ->]]]].
  - (* no stream runs *)
    destruct p, ev as [[] | [] | |], rec, tog, shift, lsn, strm, data;
      try (specialize (T eq_refl); discriminate T); clear T;
      eval_step; close_step.
  - (* the stream [h] runs, a recording is on *)
    destruct p, ev as [[] | [] | |], tog, shift, lsn, data; clear T;
      eval_step; close_step.
Qed.

Lemma Inv_initial : Inv initial.
Proof.
  repeat split; [discriminate | left; reflexivity].
Qed.

Lemma run_snoc p evs x s :
  run p (evs ++ [x]) s = deliver p (fst x) (snd x) (run p evs s).
Proof.
  unfold run. rewrite fold_left_app. reflexivity.
Qed.

Lemma Inv_run p evs : Inv (run p evs initial).
Proof.
  induction evs as [|x evs IH] using rev_ind.
  - exact Inv_initial.
  - rewrite run_snoc. apply (deliver_step p (fst x) (snd x) IH).
Qed.

Lemma streams_ok_sessions s :
  streams_ok s -> (sessions s <= 1)%nat /\ (sessions s = 1%nat -> recording s = true).
Proof.
  unfold sessions. intros [-> | [R [h [_ ->]]]]; cbn [List.length].
  - split; [lia | discriminate].
  - split; [lia | intros _; exact R].
Qed.

(** C1, as the claim has it, fails: in dictator.py, hold key down, shift
    down, hold key up, hold key down goes from Momentary to Continuous with
    no stop in between. *)
Lemma momentary_to_continuous :
  ~ (forall p evs env ev,
        spec_edge (current_mode (run p evs initial))
                  (current_mode (deliver p env ev (run p evs initial))) = true).
Proof.
  intros H.
  specialize (H dictator_py
                [(studio, Press Key_alt); (studio, Press Key_shift);
                 (studio, Release Key_alt)]
                studio (Press Key_alt)).
  vm_compute in H. discriminate H.
Qed.

(** C1, amended: observed between events, the mode moves along the edges
    of the specification or, on a press of the hold key with shift held,
    from Momentary to Continuous; never from Continuous to Momentary.  At
    most one stream runs at any time, and only during a recording. *)
Theorem mode_edges p evs env ev :
  let s := run p evs initial in
  let s' := deliver p env ev s in
  code_edge (current_mode s) (current_mode s') = true
  /\ (spec_edge (current_mode s) (current_mode s') = false ->
      current_mode s = Momentary /\ current_mode s' = Continuous
      /\ ev = Press (HOLD_KEY p) /\ shift_held s = true)
  /\ (sessions s' <= 1)%nat
  /\ (sessions s' = 1%nat -> recording s' = true).
Proof.
  intros s s'.
  destruct (deliver_step p env ev (Inv_run p evs)) as [[_ [_ S]] [E M]].
  fold s in E, M. fold s' in S, E, M.
  split; [exact E|]. split; [|exact (streams_ok_sessions S)].
  destruct (current_mode s) eqn:A, (current_mode s') eqn:B; try discriminate.
  intros _. destruct (M eq_refl eq_refl) as [-> Sh]. repeat split. exact Sh.
Qed.

(** ** The pipeline, continued *)

Lemma gates_pass_app (audio : Audio) :
  gates_pass dictator_app_py audio = true ->
  Qltb (duration audio) DictatorApp.MIN_AUDIO_DURATION = false
  /\ sqrt_lt (mean_square audio) DictatorApp.MIN_AUDIO_ENERGY = false.
Proof.
  unfold gates_pass, too_short, no_sound. intros H.
  apply andb_true_iff in H. destruct H as [A B].
  apply negb_true_iff in A. apply negb_true_iff in B. split; assumption.
Qed.

(** C7: a buffer of zeros is rejected by dictator_app.py whatever its
    length: its mean square is 0, below the threshold, and nothing reaches
    the engine, the clipboard or the history. *)
Theorem energy_gate_rejects_silence (env : Env) (s : State) :
  Forall (fun x => x == 0) (concatenate (audio_data s)) ->
  let s' := snd (DictatorApp.stop_recording env s) in
  (concatenate (audio_data s) <> [] -> no_sound (concatenate (audio_data s)) = true)
  /\ result_events (emitted s s') = []
  /\ engine_calls (emitted s s') = []
  /\ history s' = history s
  /\ recording s' = false.
Proof.
  intros Z. pose proof (silence_no_sound Z) as N. split; [intros _; exact N|].
  unfold no_sound in N. clear Z.
  py_state s. cbn [audio_data] in N.
  destruct rec, strm, data; py_eval;
    try (destruct (Qltb (duration _) _)); try rewrite N; py_eval; emitted_eval;
    repeat apply conj; reflexivity.
Qed.

(** C8: a buffer that passes the gates goes to the engine; the text that
    comes back is stripped of the white space around it and pasted when
    something is left, and dropped when nothing is. *)
Theorem pipeline_round_trip (p : Program) (env : Env) (s : State) (h : Handle) (r : str) :
  recording s = true ->
  stream s = Some h ->
  audio_data s <> [] ->
  gates_pass p (concatenate (audio_data s)) = true ->
  whisper env (concatenate (audio_data s)) = Some r ->
  let s' := snd (stop_recording p env s) in
  engine_calls (emitted s s') = [concatenate (audio_data s)]
  /\ result_events (emitted s s') = (if truthy (strip r) then [strip r] else [])
  /\ (exists a b, r = a ++ strip r ++ b
                  /\ forallb isspace a = true /\ forallb isspace b = true)
  /\ leading_space (strip r) = false
  /\ trailing_space (strip r) = false
  /\ (r = lit "hello world" -> result_events (emitted s s') = [lit "hello world"])
  /\ (forallb isspace r = true -> result_events (emitted s s') = []).
Proof.
  intros R St D G W s'.
  assert (E : engine_calls (emitted s s') = [concatenate (audio_data s)]
              /\ result_events (emitted s s') = (if truthy (strip r) then [strip r] else [])).
  { subst s'. py_state s. cbn [recording stream audio_data] in *. subst rec strm.
    destruct data as [|c data]; [contradiction D; reflexivity|].
    destruct p.
    - py_eval. rewrite W. py_eval.
      destruct (truthy (strip r)); py_eval; emitted_eval; split; reflexivity.
    - destruct (gates_pass_app _ G) as [G1 G2].
      py_eval. rewrite G1, G2, W. py_eval.
      destruct (truthy (strip r)); py_eval; emitted_eval; split; reflexivity. }
  destruct E as [E1 E2].
  split; [exact E1|]. split; [exact E2|]. split; [apply strip_split|].
  split; [apply strip_no_leading|]. split; [apply strip_no_trailing|]. split.
  - intros ->. rewrite E2. reflexivity.
  - intros A. rewrite E2, (strip_all_space r A). reflexivity.
Qed.

(** C9: one stop of a recording in dictator_app.py.  An accepted
    transcription is sent once, to the clipboard and then as Cmd+V, and
    put in front of the history, which keeps at most MAX_HISTORY entries;
    a rejected one sends nothing and leaves the history alone. *)
Theorem one_result_per_accepted_recording (env : Env) (s : State) (h : Handle) :
  recording s = true ->
  stream s = Some h ->
  let audio := concatenate (audio_data s) in
  let s' := snd (DictatorApp.stop_recording env s) in
  (forall r,
      audio_data s <> [] ->
      gates_pass dictator_app_py audio = true ->
      whisper env audio = Some r ->
      truthy (strip r) = true ->
      sink_effects (emitted s s') = paste (strip r)
      /\ result_events (emitted s s') = [strip r]
      /\ history s' = firstn DictatorApp.MAX_HISTORY ((now env, strip r) :: history s)
      /\ (List.length (history s') <= DictatorApp.MAX_HISTORY)%nat)
  /\ (audio_data s = []
      \/ gates_pass dictator_app_py audio = false
      \/ whisper env audio = None
      \/ (exists r, whisper env audio = Some r /\ truthy (strip r) = false) ->
      sink_effects (emitted s s') = []
      /\ result_events (emitted s s') = []
      /\ history s' = history s).
Proof.
  intros R St audio s'. subst audio s'.
  py_state s. cbn [recording stream audio_data] in *. subst rec strm. split.
  - intros r D G W T.
    destruct data as [|c data]; [contradiction D; reflexivity|].
    destruct (gates_pass_app _ G) as [G1 G2].
    py_eval. rewrite G1, G2, W. py_eval. rewrite T. py_eval. emitted_eval.
    cbn [sink_effects]. repeat apply conj; try reflexivity.
    apply firstn_le_length.
  - intros C. destruct data as [|c data].
    + py_eval. emitted_eval. cbn [sink_effects]. repeat apply conj; reflexivity.
    + py_eval.
      destruct (Qltb (duration _) _) eqn:G1; py_eval;
        [emitted_eval; cbn [sink_effects]; repeat apply conj; reflexivity|].
      destruct (sqrt_lt _ _) eqn:G2; py_eval;
        [emitted_eval; cbn [sink_effects]; repeat apply conj; reflexivity|].
      destruct (whisper env _) as [r|] eqn:W; py_eval;
        [|emitted_eval; cbn [sink_effects]; repeat apply conj; reflexivity].
      destruct (truthy (strip r)) eqn:T; py_eval;
        [|emitted_eval; cbn [sink_effects]; repeat apply conj; reflexivity].
      exfalso. destruct C as [C | [C | [C | [r' [C1 C2]]]]].
      * discriminate C.
      * unfold gates_pass, too_short, no_sound in C. rewrite G1, G2 in C.
        discriminate C.
      * discriminate C.
      * injection C1 as <-. congruence.
Qed.

(** ** The history *)

Lemma In_firstn {A} (n : nat) (x : A) (l : list A) : In x (firstn n l) -> In x l.
Proof.
  intros H. rewrite <- (firstn_skipn n l). apply in_or_app. left. exact H.
Qed.

Lemma history_ok_appendleft (entry : str * str) (h : list (str * str)) :
  clean_text (snd entry) -> history_ok h ->
  history_ok (firstn DictatorApp.MAX_HISTORY (entry :: h)).
Proof.
  intros C [F _]. split.
  - apply Forall_forall. intros x Hx. apply In_firstn in Hx.
    revert x Hx. apply Forall_forall. constructor; assumption.
  - apply firstn_le_length.
Qed.

(** One stop leaves the history as it is or puts one stripped, non-empty
    text in front. *)
Lemma stop_recording_history p env s :
  let s' := snd (stop_recording p env s) in
  history s' = history s
  \/ exists r, truthy (strip r) = true
               /\ history s' = firstn DictatorApp.MAX_HISTORY ((now env, strip r) :: history s).
Proof.
  py_state s. destruct p, rec, strm, data; py_cases;
    try (left; reflexivity).
  right. eexists. split; [eassumption | reflexivity].
Qed.

Lemma Thread_run_history p env s :
  history_ok (history s) ->
  history_ok (history (Thread_run (stop_recording p env) s)).
Proof.
  intros H. unfold Thread_run.
  pose proof (stop_recording_history p env s) as S. cbv zeta in S.
  destruct (stop_recording p env s) as [[a|e] s']; cbn [snd] in S;
    [|change (history (emit (ThreadExcepthook e) s')) with (history s')];
    (destruct S as [-> | [r [T ->]]];
     [exact H | apply history_ok_appendleft; [apply truthy_clean, T | exact H]]).
Qed.

Lemma run_threads_history p env n s :
  history_ok (history s) ->
  history_ok (history (run_threads (stop_recording p env) n s)).
Proof.
  revert s. induction n as [|n IH]; intros s H; cbn [run_threads]; [exact H|].
  apply IH, Thread_run_history. exact H.
Qed.

Lemma handle_history p env ev s :
  history (handle p env ev s) = history s \/ history (handle p env ev s) = [].
Proof.
  py_state s.
  destruct p, ev as [[] | [] | |], rec, tog, shift, lsn, act; py_cases;
    (left; reflexivity) || (right; reflexivity).
Qed.

Lemma deliver_history p env ev s :
  history_ok (history s) -> history_ok (history (deliver p env ev s)).
Proof.
  intros H. unfold deliver, join_threads. apply run_threads_history.
  destruct (handle_history p env ev s) as [-> | ->]; [exact H|].
  split; [constructor | cbn; lia].
Qed.

(** C10: whatever the events, every entry of the history has a text that
    is not empty and has no white space at either end, and there are at
    most MAX_HISTORY of them; an engine output that is empty or all white
    space, or an engine that raises, adds no entry. *)
Theorem history_entries_clean (p : Program) (evs : list (Env * Event)) :
  (forall timestamp text,
      In (timestamp, text) (history (run p evs initial)) -> clean_text text)
  /\ (List.length (history (run p evs initial)) <= DictatorApp.MAX_HISTORY)%nat
  /\ (forall env s,
        match whisper env (concatenate (audio_data s)) with
        | Some r => forallb isspace r = true
        | None => True
        end ->
        history (snd (stop_recording p env s)) = history s).
Proof.
  assert (H : history_ok (history (run p evs initial))).
  { induction evs as [|x evs IH] using rev_ind.
    - split; [constructor | cbn; lia].
    - rewrite run_snoc. apply deliver_history, IH. }
  destruct H as [F L]. split; [|split; [exact L|]].
  - intros timestamp text I.
    exact (proj1 (Forall_forall _ _) F (timestamp, text) I).
  - intros env s W. py_state s. cbn [audio_data] in W.
    destruct p, rec, strm, data; py_eval; try reflexivity.
    + destruct (whisper env _) as [r|]; py_eval; [|reflexivity].
      rewrite (strip_all_space r W). reflexivity.
    + destruct (Qltb _ _); py_eval; [reflexivity|].
      destruct (sqrt_lt _ _); py_eval; [reflexivity|].
      destruct (whisper env _) as [r|]; py_eval; [|reflexivity].
      rewrite (strip_all_space r W). reflexivity.
Qed.

(** ** Starting *)

(** C2, as the claim has it, fails: with no input device, a start from
    the initial state raises and leaves [recording] set. *)
Lemma failed_start_changes_state :
  ~ (forall env s,
        mic_ok env = false ->
        current_mode s = Idle ->
        snd (start_recording env s) = s
        /\ current_mode (snd (start_recording env s)) = Idle).
Proof.
  intros H. destruct (H no_mic initial eq_refl eq_refl) as [_ M].
  vm_compute in M. discriminate M.
Qed.

(** C2, amended: when the device cannot be opened, a start made while a
    recording is on does nothing; a start made otherwise raises
    PortAudioError with no stream started and [stream] untouched, but
    [recording] is already [True] and [audio_data] already empty: the flags
    do not read Idle. *)
Theorem failed_start (env : Env) (s : State) :
  mic_ok env = false ->
  let r := start_recording env s in
  if recording s then r = (Return tt, s)
  else
    fst r = Raise PortAudioError
    /\ snd r = set_audio_data [] (set_recording true s)
    /\ active (snd r) = active s
    /\ stream (snd r) = stream s
    /\ emitted s (snd r) = []
    /\ current_mode (snd r) <> Idle.
Proof.
  intros M. py_state s. destruct rec; py_eval; rewrite ?M; py_eval.
  - reflexivity.
  - emitted_eval. repeat apply conj; try reflexivity.
    destruct tog; discriminate.
Qed.

(** C4, as the claim has it, fails: the second of two starts returns what
    the first returned, None, so that nothing tells the caller that a
    recording was on. *)
Lemma second_start_is_silent :
  ~ (forall env s,
        mic_ok env = true ->
        current_mode s = Idle ->
        sessions s = O ->
        let r1 := start_recording env s in
        let r2 := start_recording env (snd r1) in
        snd r2 = snd r1 /\ sessions (snd r2) = 1%nat /\ fst r2 <> fst r1).
Proof.
  intros H. destruct (H studio initial eq_refl eq_refl eq_refl) as [_ [_ N]].
  apply N. vm_compute. reflexivity.
Qed.

(** C4, amended: the second of two starts in a row returns None and
    changes nothing, whatever the state and the device; the two calls
    together start one stream when no recording was on and the device
    opens, and none otherwise. *)
Theorem start_twice (env1 env2 : Env) (s : State) :
  let r1 := start_recording env1 s in
  let r2 := start_recording env2 (snd r1) in
  r2 = (Return tt, snd r1)
  /\ recording (snd r2) = true
  /\ sessions (snd r2) =
     (sessions s + if recording s then 0 else if mic_ok env1 then 1 else 0)%nat.
Proof.
  py_state s. destruct rec, (mic_ok env1) eqn:M; py_eval; rewrite ?M; py_eval;
    repeat apply conj; try reflexivity; cbn [List.length]; lia.
Qed.

(** ** Stopping *)

(** C3, as the claim has it, fails: nothing in [stop_recording] catches
    what the engine raises; the call does not return a rejected result, it
    ends by the exception. *)
Lemma engine_error_leaves_stop_recording :
  ~ (forall p env s,
        whisper env (concatenate (audio_data s)) = None ->
        exists s', stop_recording p env s = (Return tt, s')).
Proof.
  intros H.
  destruct (H dictator_py broken_engine (holding_alt [1]) eq_refl) as [s' E].
  vm_compute in E. discriminate E.
Qed.

(** C3, amended: when the engine raises on a buffer that passed the gates,
    the exception is not caught in [stop_recording]: it leaves the call and
    ends the thread that runs it, which [threading] reports, and nothing
    else.  No result is sent, the history is as it was, the listener still
    runs, the flags read Idle, and the next press of the hold key starts a
    recording. *)
Theorem engine_failure_contained (p : Program) (env : Env) (s : State) (h : Handle) :
  recording s = true ->
  toggle_mode s = false ->
  stream s = Some h ->
  audio_data s <> [] ->
  gates_pass p (concatenate (audio_data s)) = true ->
  whisper env (concatenate (audio_data s)) = None ->
  fst (stop_recording p env s) = Raise EngineError
  /\ let s' := Thread_run (stop_recording p env) s in
     emitted s s' = [StreamClose h; Transcribe (concatenate (audio_data s));
                     ThreadExcepthook EngineError]
     /\ sink_effects (emitted s s') = []
     /\ history s' = history s
     /\ listener s' = listener s
     /\ current_mode s' = Idle
     /\ (forall env',
           mic_ok env' = true -> listener s = true -> threads s = O ->
           let s'' := deliver p env' (Press (HOLD_KEY p)) s' in
           recording s'' = true
           /\ stream s'' = Some (fresh s)
           /\ In (fresh s) (active s'')
           /\ listener s'' = true).
Proof.
  intros R T St D G W.
  py_state s. cbn [recording toggle_mode stream audio_data listener threads fresh] in *.
  subst rec tog strm.
  destruct data as [|c data]; [contradiction D; reflexivity|].
  assert (G' : Qltb (duration (concatenate (c :: data))) DictatorApp.MIN_AUDIO_DURATION = false
               /\ sqrt_lt (mean_square (concatenate (c :: data))) DictatorApp.MIN_AUDIO_ENERGY = false
               \/ p = dictator_py).
  { destruct p; [right; reflexivity | left; apply gates_pass_app, G]. }
  clear G.
  destruct p; (destruct G' as [[G1 G2] | G']; [|try discriminate G']);
    py_eval; rewrite ?G1, ?G2, W; py_eval; emitted_eval; cbn [sink_effects];
    (repeat apply conj; try reflexivity;
     intros env' M -> ->; py_eval; rewrite ?M; destruct shift; py_eval;
     rewrite ?M; py_eval;
     repeat apply conj; try reflexivity; left; reflexivity).
Qed.


(** * Instances *)

(** The state [holding indata], field by field *)
Lemma holding_eq (indata : Chunk) :
  holding indata =
  mkState true false false [indata] (Some O) [] [O] 1%nat O true [StreamStart O].
Proof. reflexivity. Qed.

Lemma silence_zero (n : nat) : Forall (fun x => x == 0) (concatenate [silence n]).
Proof.
  apply Forall_forall. intros x Hx. unfold concatenate in Hx.
  apply in_concat in Hx. destruct Hx as [c [[<- | []] Hx]].
  apply repeat_spec in Hx. subst x. reflexivity.
Qed.

(** 0.3 s of loud samples: 4800 at 16 kHz *)
Lemma duration_gate_rejects_witness :
  duration (concatenate (audio_data (holding (loud (ms 300))))) < DictatorApp.MIN_AUDIO_DURATION
  /\ let s := holding (loud (ms 300)) in
     let s' := snd (DictatorApp.stop_recording studio s) in
     result_events (emitted s s') = []
     /\ engine_calls (emitted s s') = []
     /\ history s' = history s
     /\ recording s' = false.
Proof.
  assert (H : duration (concatenate (audio_data (holding (loud (ms 300)))))
              < DictatorApp.MIN_AUDIO_DURATION) by (vm_compute; reflexivity).
  split; [exact H | exact (duration_gate_rejects studio (holding (loud (ms 300))) H)].
Defined.

(** One second of silence: long enough for the duration gate *)
Lemma energy_gate_rejects_silence_witness :
  Forall (fun x => x == 0) (concatenate (audio_data (holding (silence (ms 1000)))))
  /\ too_short (concatenate (audio_data (holding (silence (ms 1000))))) = false
  /\ let s := holding (silence (ms 1000)) in
     let s' := snd (DictatorApp.stop_recording studio s) in
     (concatenate (audio_data s) <> [] -> no_sound (concatenate (audio_data s)) = true)
     /\ result_events (emitted s s') = []
     /\ engine_calls (emitted s s') = []
     /\ history s' = history s
     /\ recording s' = false.
Proof.
  assert (H : Forall (fun x => x == 0)
                (concatenate (audio_data (holding (silence (ms 1000))))))
    by (rewrite holding_eq; cbn [audio_data]; apply silence_zero).
  split; [exact H|]. split; [vm_compute; reflexivity|].
  exact (energy_gate_rejects_silence studio (holding (silence (ms 1000))) H).
Defined.

Lemma pipeline_round_trip_witness :
  let s := holding (loud (ms 1000)) in
  recording s = true
  /\ stream s = Some O
  /\ audio_data s <> []
  /\ gates_pass dictator_app_py (concatenate (audio_data s)) = true
  /\ whisper studio (concatenate (audio_data s)) = Some (lit "hello world")
  /\ result_events (emitted s (snd (stop_recording dictator_app_py studio s)))
     = [lit "hello world"].
Proof.
  intros s.
  assert (R : recording s = true) by reflexivity.
  assert (St : stream s = Some O) by reflexivity.
  assert (D : audio_data s <> []) by (vm_compute; discriminate).
  assert (G : gates_pass dictator_app_py (concatenate (audio_data s)) = true)
    by (vm_compute; reflexivity).
  assert (W : whisper studio (concatenate (audio_data s)) = Some (lit "hello world"))
    by reflexivity.
  do 5 (split; [assumption|]).
  exact (proj1 (proj2 (proj2 (proj2 (proj2 (proj2
           (pipeline_round_trip dictator_app_py studio s R St D G W))))))
           eq_refl).
Defined.

Lemma one_result_per_accepted_recording_witness :
  let s := holding (loud (ms 1000)) in
  let s' := snd (DictatorApp.stop_recording studio s) in
  recording s = true
  /\ stream s = Some O
  /\ sink_effects (emitted s s') = paste (lit "hello world")
  /\ history s' = [(lit "09:41 AM", lit "hello world")].
Proof.
  intros s s'.
  assert (R : recording s = true) by reflexivity.
  assert (St : stream s = Some O) by reflexivity.
  do 2 (split; [assumption|]).
  destruct (proj1 (one_result_per_accepted_recording studio s R St)
              (lit "hello world")) as [A [_ [B _]]].
  - vm_compute. discriminate.
  - vm_compute. reflexivity.
  - reflexivity.
  - vm_compute. reflexivity.
  - split; [exact A | exact B].
Defined.

Lemma engine_failure_contained_witness :
  let s := holding (loud (ms 1000)) in
  let s' := Thread_run (stop_recording dictator_app_py broken_engine) s in
  recording s = true
  /\ toggle_mode s = false
  /\ stream s = Some O
  /\ audio_data s <> []
  /\ gates_pass dictator_app_py (concatenate (audio_data s)) = true
  /\ whisper broken_engine (concatenate (audio_data s)) = None
  /\ fst (stop_recording dictator_app_py broken_engine s) = Raise EngineError
  /\ sink_effects (emitted s s') = []
  /\ current_mode s' = Idle
  /\ recording (deliver dictator_app_py studio (Press Key_ctrl) s') = true.
Proof.
  intros s s'.
  assert (R : recording s = true) by reflexivity.
  assert (T : toggle_mode s = false) by reflexivity.
  assert (St : stream s = Some O) by reflexivity.
  assert (D : audio_data s <> []) by (vm_compute; discriminate).
  assert (G : gates_pass dictator_app_py (concatenate (audio_data s)) = true)
    by (vm_compute; reflexivity).
  assert (W : whisper broken_engine (concatenate (audio_data s)) = None)
    by reflexivity.
  do 6 (split; [assumption|]).
  destruct (engine_failure_contained dictator_app_py broken_engine s R T St D G W)
    as [A [_ [B [_ [_ [C N]]]]]].
  split; [exact A|]. split; [exact B|]. split; [exact C|].
  exact (proj1 (N studio eq_refl eq_refl eq_refl)).
Defined.


Lemma failed_start_witness :
  mic_ok no_mic = false
  /\ fst (start_recording no_mic initial) = Raise PortAudioError
  /\ current_mode (snd (start_recording no_mic initial)) <> Idle.
Proof.
  assert (M : mic_ok no_mic = false) by reflexivity.
  split; [exact M|].
  destruct (failed_start no_mic initial M) as [A [_ [_ [_ [_ B]]]]].
  split; [exact A | exact B].
Defined.

(** * Further properties of the event loop *)

Lemma streams_started_app (a b : list Effect) :
  streams_started (a ++ b) = (streams_started a + streams_started b)%nat.
Proof.
  induction a as [|[] a IH]; cbn [app streams_started]; rewrite ?IH; reflexivity.
Qed.

Lemma streams_closed_app (a b : list Effect) :
  streams_closed (a ++ b) = (streams_closed a + streams_closed b)%nat.
Proof.
  induction a as [|[] a IH]; cbn [app streams_closed]; rewrite ?IH; reflexivity.
Qed.

Lemma result_events_app (a b : list Effect) :
  result_events (a ++ b) = result_events a ++ result_events b.
Proof.
  induction a as [|[] a IH]; cbn [app result_events]; rewrite ?IH; reflexivity.
Qed.

Lemma engine_calls_app (a b : list Effect) :
  engine_calls (a ++ b) = engine_calls a ++ engine_calls b.
Proof.
  induction a as [|[] a IH]; cbn [app engine_calls]; rewrite ?IH; reflexivity.
Qed.

Lemma thread_errors_app (a b : list Effect) :
  thread_errors (a ++ b) = thread_errors a ++ thread_errors b.
Proof.
  induction a as [|[] a IH]; cbn [app thread_errors]; rewrite ?IH; reflexivity.
Qed.

(** Brings the counters of a log [tr ++ new] down to those of [tr]. *)
Ltac tally :=
  rewrite ?streams_started_app, ?streams_closed_app, ?result_events_app,
    ?engine_calls_app, ?thread_errors_app, ?length_app;
  cbn [streams_started streams_closed result_events engine_calls thread_errors
       List.length app];
  rewrite ?app_nil_r.

Ltac close_trace_step :=
  repeat apply conj;
  try reflexivity; try discriminate; try lia; try assumption;
  try (left; split; [reflexivity | (intros; reflexivity) || discriminate]);
  try (right; repeat split; eexists; split; reflexivity);
  try (apply Forall_app; split; [assumption | repeat constructor]);
  try (intros; discriminate).

(** One event, from a state of the two invariants. *)
Lemma deliver_step_trace p env ev s :
  Inv_listener s -> trace_ok s ->
  let s' := deliver p env ev s in
  Inv_listener s' /\ trace_ok s'
  /\ (mic_ok env = true -> listener s' = listener s).
Proof.
  py_state s. unfold Inv_listener, trace_ok, sessions.
  cbn [threads toggle_mode recording active stream listener trace].
  intros [-> [T A]] [C1 [C2 [C3 C4]]].
  destruct A as [[-> L] | [-> [-> [h [-> ->]]]]].
  - destruct p, ev as [[] | [] | |], rec, tog, shift, lsn, strm, data;
      try (specialize (T eq_refl); discriminate T); clear T;
      try (specialize (L eq_refl); discriminate L); clear L;
      eval_step; tally; cbn [List.length] in *; close_trace_step.
  - destruct p, ev as [[] | [] | |], tog, shift, data; clear T;
      eval_step; tally; cbn [List.length] in *; close_trace_step.
Qed.

Lemma run_invariants p evs :
  Inv_listener (run p evs initial) /\ trace_ok (run p evs initial).
Proof.
  induction evs as [|x evs [I T]] using rev_ind.
  - split.
    + repeat split; [discriminate | left; split; [reflexivity | discriminate]].
    + repeat split; cbn; try lia. constructor.
  - rewrite run_snoc.
    destruct (deliver_step_trace p (fst x) (snd x) I T) as [I' [T' _]].
    split; assumption.
Qed.

Lemma thread_errors_In (e : Exn) (l : list Effect) :
  In (ThreadExcepthook e) l -> In e (thread_errors l).
Proof.
  induction l as [|x l IH]; [intros []|].
  intros [-> | H]; [left; reflexivity|].
  destruct x; cbn [thread_errors]; try (right); apply IH, H.
Qed.

(** X1: in a run where every stop thread runs to its end before the next
    event is handled, a stop thread never finds the global [stream]
    unbound: the only exception that ever ends a thread is the engine's. *)
Theorem stop_threads_only_fail_in_engine (p : Program) (evs : list (Env * Event)) (e : Exn) :
  In (ThreadExcepthook e) (trace (run p evs initial)) -> e = EngineError.
Proof.
  intros H. destruct (run_invariants p evs) as [_ [_ [_ [_ F]]]].
  apply thread_errors_In in H.
  exact (proj1 (Forall_forall _ _) F e H).
Qed.

(** X2: in a run where every stop thread runs to its end before the next
    event is handled, every stream that was started is closed again,
    except the one of the recording in progress: the starts in the log are
    the closes plus the streams that run, of which there is at most one. *)
Theorem streams_balanced (p : Program) (evs : list (Env * Event)) :
  let s := run p evs initial in
  streams_started (trace s) = (streams_closed (trace s) + sessions s)%nat
  /\ (sessions s <= 1)%nat.
Proof.
  intros s. destruct (run_invariants p evs) as [[_ [_ A]] [B _]]. fold s in A, B.
  split; [exact B|]. unfold sessions.
  destruct A as [[-> _] | [_ [_ [h [_ ->]]]]]; cbn; lia.
Qed.


Lemma run_cons p x evs s :
  run p (x :: evs) s = run p evs (deliver p (fst x) (snd x) s).
Proof. reflexivity. Qed.

Lemma run_app p a b s : run p (a ++ b) s = run p b (run p a s).
Proof. unfold run. apply fold_left_app. Qed.

(** X4: in a run where every stop thread runs to its end before the next
    event is handled and the device opens at every event, the listener
    keeps running and a stream runs exactly while [recording] is set. *)
Theorem working_microphone (p : Program) (evs : list (Env * Event)) :
  Forall (fun x => mic_ok (fst x) = true) evs ->
  let s := run p evs initial in
  listener s = true
  /\ (recording s = true <-> sessions s = 1%nat).
Proof.
  intros M s.
  assert (L : listener s = true).
  { subst s. induction evs as [|x evs IH] using rev_ind; [reflexivity|].
    apply Forall_app in M. destruct M as [M Mx].
    rewrite run_snoc.
    destruct (run_invariants p evs) as [I T].
    destruct (deliver_step_trace p (fst x) (snd x) I T) as [_ [_ K]].
    rewrite K; [exact (IH M) | exact (Forall_inv Mx)]. }
  split; [exact L|].
  destruct (run_invariants p evs) as [[_ [_ A]] _]. fold s in A.
  unfold sessions.
  destruct A as [[-> R] | [R [_ [h [_ ->]]]]]; cbn [List.length].
  - split; [|discriminate]. intros Rt. specialize (R Rt). congruence.
  - split; [reflexivity | intros _; exact R].
Qed.

(** ** What a recording hands to the engine *)

(** As [emitted_eval], for logs of any length: the log is brought to the
    form [tr ++ new] before the lemma is used. *)
Ltac log_eval :=
  repeat (rewrite <- app_assoc; cbn [app]);
  repeat match goal with
         | |- context [emitted ?a ?b] =>
             first
               [ rewrite (@emitted_none a b) by reflexivity
               | erewrite (@emitted_app a b) by (cbn [trace]; reflexivity) ]
         end;
  cbn [result_events engine_calls stops_triggered].

Lemma run_frames p env cs s :
  recording s = true -> active s <> [] -> threads s = O ->
  run p (frames env cs) s = set_audio_data (audio_data s ++ cs) s.
Proof.
  revert s. induction cs as [|c cs IH]; intros s R A T.
  - py_state s. cbn. rewrite app_nil_r. reflexivity.
  - cbn [frames List.map]. rewrite run_cons. fold (frames env cs).
    py_state s. cbn [recording active threads] in R, A, T. subst rec thr.
    destruct act as [|a act]; [contradiction A; reflexivity|].
    cbn [fst snd]. rewrite IH.
    + py_eval. rewrite <- app_assoc. reflexivity.
    + py_eval. reflexivity.
    + py_eval. discriminate.
    + py_eval. reflexivity.
Qed.

(** X5: hold key down, the chunks [cs], hold key up.  The engine is asked
    once, for the chunks that came between the two in their order, and for
    nothing that an earlier recording left in [audio_data]; it is not asked
    when no chunk came or, in dictator_app.py, when a gate stops the
    buffer.  One stream was started and closed, and the mode is Idle
    again. *)
Theorem momentary_capture (p : Program) (env : Env) (s : State) (cs : list Chunk) :
  recording s = false -> toggle_mode s = false -> shift_held s = false ->
  listener s = true -> threads s = O -> active s = [] ->
  mic_ok env = true ->
  let s' := run p ((env, Press (HOLD_KEY p)) :: frames env cs
                   ++ [(env, Release (HOLD_KEY p))]) s in
  engine_calls (emitted s s') = handed_over p cs
  /\ streams_started (emitted s s') = 1%nat
  /\ streams_closed (emitted s s') = 1%nat
  /\ current_mode s' = Idle
  /\ sessions s' = O.
Proof.
  intros R T Sh L Th A M.
  py_state s. cbn [recording toggle_mode shift_held listener threads active] in *.
  subst rec tog shift lsn thr act.
  rewrite run_cons, run_app. cbn [fst snd].
  unfold handed_over, gates_pass, too_short, no_sound.
  destruct p; py_eval; rewrite M; py_eval;
    (rewrite run_frames by (reflexivity || discriminate));
    cbn [run fold_left fst snd];
    destruct cs as [|c cs]; py_eval; cbn [app]; py_cases; log_eval; tally;
    cbn [filter]; rewrite ?Nat.eqb_refl;
    repeat apply conj; reflexivity.
Qed.

(** X6: shift and hold key down, chunks, hold key up, more chunks, hold key
    down.  The release in between stops nothing: the engine is asked once,
    for the chunks of both stretches. *)
Theorem continuous_capture (p : Program) (env : Env) (s : State) (cs1 cs2 : list Chunk) :
  recording s = false -> toggle_mode s = false ->
  listener s = true -> threads s = O -> active s = [] ->
  mic_ok env = true ->
  let s' := run p ((env, Press Key_shift) :: (env, Press (HOLD_KEY p))
                   :: frames env cs1
                   ++ (env, Release (HOLD_KEY p)) :: frames env cs2
                   ++ [(env, Press (HOLD_KEY p))]) s in
  engine_calls (emitted s s') = handed_over p (cs1 ++ cs2)
  /\ streams_started (emitted s s') = 1%nat
  /\ streams_closed (emitted s s') = 1%nat
  /\ current_mode s' = Idle
  /\ sessions s' = O.
Proof.
  intros R T L Th A M.
  py_state s. cbn [recording toggle_mode listener threads active] in *.
  subst rec tog lsn thr act.
  unfold handed_over, gates_pass, too_short, no_sound.
  rewrite !run_cons. cbn [fst snd].
  destruct p; py_eval; rewrite M; py_eval;
    rewrite run_app;
    (rewrite run_frames by (reflexivity || discriminate));
    rewrite run_cons; cbn [fst snd]; py_eval;
    rewrite run_app;
    (rewrite run_frames by (reflexivity || discriminate));
    cbn [run fold_left fst snd]; py_eval; rewrite <- ?app_assoc; cbn [app];
    destruct (cs1 ++ cs2) as [|c cs]; py_cases; log_eval; tally;
    cbn [filter]; rewrite ?Nat.eqb_refl;
    repeat apply conj; reflexivity.
Qed.

(** ** Keys that are not the hold key *)

(** X7: a key other than the hold key starts nothing, stops nothing and
    sends nothing: shift sets or clears [shift_held], any other key leaves
    the state as it is. *)
Theorem other_keys_ignored (p : Program) (env : Env) (key : Key) (s : State) :
  key <> HOLD_KEY p -> threads s = O ->
  deliver p env (Press key) s
  = (if listener s && Key_eqb key Key_shift then set_shift_held true s else s)
  /\ deliver p env (Release key) s
     = (if listener s && Key_eqb key Key_shift then set_shift_held false s else s).
Proof.
  intros K T. py_state s. cbn [threads] in T. subst thr.
  destruct p, key, lsn, tog, shift; try (contradiction K; reflexivity);
    py_eval; split; reflexivity.
Qed.

(** ** Stopping twice *)

Lemma stop_recording_idle p env s :
  recording s = false -> stop_recording p env s = (Return tt, s).
Proof.
  intros R. py_state s. cbn [recording] in R. subst rec.
  destruct p; py_eval; reflexivity.
Qed.

Lemma stop_recording_clears_flag p env s :
  recording (snd (stop_recording p env s)) = false.
Proof.
  py_state s. destruct p, rec, strm, data; py_cases; reflexivity.
Qed.

(** X8: a stop that follows a stop does nothing, however the first one
    ended (done, rejected or by an exception): no second close, no second
    transcription. *)
Theorem stop_twice (p : Program) (env1 env2 : Env) (s : State) :
  let s1 := snd (stop_recording p env1 s) in
  stop_recording p env2 s1 = (Return tt, s1).
Proof.
  intros s1. apply stop_recording_idle, stop_recording_clears_flag.
Qed.

(** * The menu bar *)

(** ** Shortened texts *)

(** X9: a shortened text has at most [n + 3] characters, is the text
    itself when that has at most [n], and otherwise starts with its first
    [n] characters and ends with three dots. *)
Theorem ellipsis_bounds (n : nat) (text : str) :
  (List.length (ellipsis n text) <= n + 3)%nat
  /\ ((List.length text <= n)%nat -> ellipsis n text = text)
  /\ ((n < List.length text)%nat -> ellipsis n text = firstn n text ++ lit "...")
  /\ firstn n (ellipsis n text) = firstn n text.
Proof.
  unfold ellipsis. destruct (Nat.ltb_spec n (List.length text)) as [H | H];
    (split; [|split; [|split]]).
  - rewrite length_app, length_firstn. cbn. lia.
  - intros L. lia.
  - intros _. reflexivity.
  - rewrite firstn_app, length_firstn, firstn_firstn.
    replace (n - Nat.min n (List.length text))%nat with O by lia.
    rewrite Nat.min_id, firstn_0, app_nil_r. reflexivity.
  - lia.
  - intros _. reflexivity.
  - intros L. lia.
  - reflexivity.
Qed.

(** ** Building the menu *)

Ltac gui_eval :=
  cbv beta iota zeta delta
    [MenuBar.core MenuBar.app MenuBar.desktop MenuBar.title MenuBar.menu
     MenuBar.set_core MenuBar.set_app MenuBar.show MenuBar.on_app
     MenuBar.gret MenuBar.gbind MenuBar.gread MenuBar.gmodify MenuBar.lift
     MenuBar.gpass MenuBar.app_set_title MenuBar.app_menu_clear
     MenuBar.app_menu_add MenuBar.update_icon MenuBar.copy_callback
     MenuBar.open_in_textedit MenuBar.clear_history MenuBar.quit_app
     MenuBar.start_recording MenuBar.stop_recording MenuBar.on_press
     MenuBar.on_release MenuBar.DictatorApp MenuBar.main_app
     MenuBar.run_callback MenuBar.Listener_callback MenuBar.Thread_run
     MenuBar.run_threads MenuBar.join_threads MenuBar.handle MenuBar.deliver
     MenuBar.to_event MenuBar.loaded MenuBar.quit_application nonempty
     DictatorApp.stop_recording Dictator.stop_recording stop_recording
     start_recording on_press on_release callback
     DictatorApp.history_appendleft DictatorApp.clear_history
     InputStream Stream_start global_stream Stream_stop_close
     Thread_start_stop_recording transcribe pyperclip_copy kb_press kb_release
     pass bind read modify ret raise
     emit set_recording set_toggle_mode set_shift_held set_audio_data
     set_stream set_history set_active set_fresh set_threads set_listener
     recording toggle_mode shift_held audio_data stream history active fresh
     threads listener trace
     Listener_callback Thread_run run_threads join_threads handle deliver
     HOLD_KEY Dictator.HOLD_KEY DictatorApp.HOLD_KEY Key_eqb
     current_mode sessions initial
     fst snd negb andb orb].

Ltac gui_state g :=
  let s := fresh "s" in
  destruct g as [s ap dsk]; py_state s.

Lemma for_each_entries (h : list (str * str)) (s : State) (t : str)
      (m : list MenuBar.MenuItem) (d : list MenuBar.Desktop) :
  MenuBar.for_each h
    (fun entry : str * str =>
       let (timestamp, text) := entry in
       let display_text := ellipsis 50 text in
       MenuBar.app_menu_add
         (MenuBar.Item (timestamp ++ lit "  " ++ display_text) (MenuBar.Cb_copy text)))
    (MenuBar.mkGui s (Some (MenuBar.mkApp t m)) d)
  = (Return tt,
     MenuBar.mkGui s (Some (MenuBar.mkApp t (m ++ List.map MenuBar.entry_item h))) d).
Proof.
  revert m. induction h as [|[timestamp text] h IH]; intros m.
  - cbn. rewrite app_nil_r. reflexivity.
  - cbn [MenuBar.for_each List.map]. unfold MenuBar.gbind at 1.
    gui_eval. rewrite IH. rewrite <- app_assoc. reflexivity.
Qed.

(** With the app bound, [update_menu] leaves everything but the menu and
    makes the menu that of the history. *)
Lemma update_menu_bound (g : MenuBar.Gui) (a : MenuBar.App) :
  MenuBar.app g = Some a ->
  MenuBar.update_menu g
  = (Return tt,
     MenuBar.set_app
       (Some (MenuBar.mkApp (MenuBar.title a) (MenuBar.menu_of (history (MenuBar.core g))))) g).
Proof.
  gui_state g. destruct a as [t m]. cbn [MenuBar.app]. intros ->.
  unfold MenuBar.update_menu, MenuBar.menu_of, MenuBar.footer.
  destruct hist as [|e h]; gui_eval.
  - reflexivity.
  - rewrite for_each_entries. gui_eval.
    cbn [app]. rewrite <- !app_assoc. reflexivity.
Qed.

Lemma update_menu_unbound (g : MenuBar.Gui) :
  MenuBar.app g = None -> MenuBar.update_menu g = (Return tt, g).
Proof.
  destruct g as [s ap d]. cbn [MenuBar.app]. intros ->. reflexivity.
Qed.

Lemma nth_error_menu_of (h : list (str * str)) (i : nat) (entry : str * str) :
  nth_error h i = Some entry ->
  nth_error (MenuBar.menu_of h) i = Some (MenuBar.entry_item entry).
Proof.
  intros H. unfold MenuBar.menu_of.
  rewrite nth_error_app1.
  - rewrite nth_error_map, H. reflexivity.
  - rewrite length_map. apply nth_error_Some. congruence.
Qed.

(** X10: with the app bound, the menu that [update_menu] builds has one
    item for each entry of the history, in its order, then a separator and
    "Open in TextEdit" when there is an entry, and always ends with "Clear
    History", a separator and "Quit"; what the menu showed before does not
    matter. *)
Theorem update_menu_layout (g : MenuBar.Gui) (a : MenuBar.App) :
  MenuBar.app g = Some a ->
  let g' := snd (MenuBar.update_menu g) in
  let h := history (MenuBar.core g) in
  exists m,
    MenuBar.app g' = Some (MenuBar.mkApp (MenuBar.title a) m)
    /\ MenuBar.core g' = MenuBar.core g
    /\ MenuBar.desktop g' = MenuBar.desktop g
    /\ firstn (List.length h) m = List.map MenuBar.entry_item h
    /\ skipn (List.length h) m = MenuBar.footer h
    /\ List.length m = (List.length h + (if nonempty h then 5 else 3))%nat
    /\ (In (MenuBar.Item (lit "Open in TextEdit") MenuBar.Cb_open_in_textedit) m
        <-> h <> [])
    /\ In (MenuBar.Item (lit "Quit") MenuBar.Cb_quit_app) m.
Proof.
  intros A g' h. subst g'. rewrite (update_menu_bound g A). cbn [snd].
  exists (MenuBar.menu_of h). destruct g as [s ap d]. cbn [MenuBar.core] in h.
  cbn [MenuBar.set_app MenuBar.app MenuBar.core MenuBar.desktop]. fold h.
  assert (L : List.length (List.map MenuBar.entry_item h) = List.length h)
    by apply length_map.
  split; [reflexivity|]. split; [reflexivity|]. split; [reflexivity|].
  unfold MenuBar.menu_of. split; [|split; [|split; [|split]]].
  - rewrite firstn_app, <- L, firstn_all, Nat.sub_diag, firstn_0, app_nil_r.
    reflexivity.
  - rewrite skipn_app, <- L, skipn_all, Nat.sub_diag. reflexivity.
  - rewrite length_app, L. unfold MenuBar.footer.
    destruct h; cbn [nonempty List.length app]; lia.
  - split.
    + intros I E. rewrite E in I. cbn in I.
      destruct I as [I | [I | [I | []]]]; discriminate I.
    + intros N. apply in_or_app. right. unfold MenuBar.footer.
      destruct h as [|e h']; [contradiction N; reflexivity|].
      cbn. right. left. reflexivity.
  - apply in_or_app. right. unfold MenuBar.footer. apply in_or_app. right.
    cbn. right. right. left. reflexivity.
Qed.

(** ** Choosing an item *)

(** X11: the item that [update_menu] makes for the [i]-th entry of the
    history shows the time and the shortened text, and choosing it puts
    the whole text on the clipboard, notifies with the shortened text and
    changes neither the history nor the menu. *)
Theorem menu_item_copies_whole_text
        (env : Env) (today : str) (g : MenuBar.Gui) (a : MenuBar.App)
        (i : nat) (timestamp text : str) :
  MenuBar.app g = Some a ->
  threads (MenuBar.core g) = O ->
  nth_error (history (MenuBar.core g)) i = Some (timestamp, text) ->
  let g1 := snd (MenuBar.update_menu g) in
  let g2 := MenuBar.deliver env today (MenuBar.Click i) g1 in
  (exists a1,
      MenuBar.app g1 = Some a1
      /\ nth_error (MenuBar.menu a1) i
         = Some (MenuBar.Item (timestamp ++ lit "  " ++ ellipsis 50 text)
                              (MenuBar.Cb_copy text)))
  /\ emitted (MenuBar.core g1) (MenuBar.core g2) = [ClipboardCopy text]
  /\ MenuBar.desktop g2
     = MenuBar.desktop g1
       ++ [MenuBar.Notification (lit "Voice Dictator") (lit "Copied!")
                                (ellipsis 50 text)]
  /\ history (MenuBar.core g2) = history (MenuBar.core g1)
  /\ MenuBar.app g2 = MenuBar.app g1.
Proof.
  intros A T N g1 g2. subst g2 g1.
  rewrite (update_menu_bound g A). cbn [snd].
  pose proof (@nth_error_menu_of _ _ _ N) as M.
  gui_state g. cbn [MenuBar.core threads history] in *. subst thr.
  split.
  - eexists. split; [reflexivity|]. cbn [MenuBar.menu]. exact M.
  - gui_eval. rewrite M. unfold MenuBar.entry_item. gui_eval. log_eval.
    repeat apply conj; reflexivity.
Qed.

(** ** The history in TextEdit *)

Lemma textedit_fold (acc : list str) (h : list (str * str)) :
  fold_left
    (fun (lines : list str) (entry : str * str) =>
       let (timestamp, text) := entry in
       let lines := lines ++ [lit "[" ++ timestamp ++ lit "]"] in
       let lines := lines ++ [text] in
       let lines := lines ++ [[]] in
       let lines := lines ++ [times (lit "-") 30] in
       lines ++ [[]])
    h acc
  = acc ++ flat_map MenuBar.entry_lines h.
Proof.
  revert acc. induction h as [|[timestamp text] h IH]; intros acc.
  - cbn. rewrite app_nil_r. reflexivity.
  - cbn [fold_left flat_map]. rewrite IH.
    unfold MenuBar.entry_lines. cbn [fst snd].
    rewrite <- !app_assoc. reflexivity.
Qed.

Lemma entry_lines_nth (h : list (str * str)) (i k : nat) (entry : str * str) :
  nth_error h i = Some entry -> (k < 5)%nat ->
  nth_error (flat_map MenuBar.entry_lines h) (5 * i + k)
  = nth_error (MenuBar.entry_lines entry) k.
Proof.
  revert i. induction h as [|e h IH]; intros i N K.
  - destruct i; discriminate N.
  - destruct i as [|i].
    + injection N as ->. cbn [flat_map]. rewrite nth_error_app1; [|cbn; lia].
      replace (5 * 0 + k)%nat with k by lia. reflexivity.
    + cbn [nth_error] in N. cbn [flat_map].
      rewrite nth_error_app2; [|cbn; lia].
      replace (5 * S i + k - List.length (MenuBar.entry_lines e))%nat
        with (5 * i + k)%nat by (cbn; lia).
      apply IH; assumption.
Qed.

Lemma flat_map_entry_lines_length (h : list (str * str)) :
  List.length (flat_map MenuBar.entry_lines h) = (5 * List.length h)%nat.
Proof.
  induction h as [|e h IH]; [reflexivity|].
  cbn [flat_map]. rewrite length_app, IH. cbn. lia.
Qed.

(** X12: "Open in TextEdit" does nothing when the history is empty.
    Otherwise it writes one file and opens it once; the file has five
    lines of heading and five lines for each entry, in the order of the
    history, of which the first is the time in brackets and the second the
    whole text; it changes neither the history nor the menu. *)
Theorem textedit_export (today : str) (g : MenuBar.Gui) :
  let g' := snd (MenuBar.open_in_textedit today g) in
  let h := history (MenuBar.core g) in
  MenuBar.core g' = MenuBar.core g
  /\ MenuBar.app g' = MenuBar.app g
  /\ (h = [] -> MenuBar.desktop g' = MenuBar.desktop g)
  /\ (h <> [] ->
      exists lines,
        MenuBar.desktop g'
        = MenuBar.desktop g ++ [MenuBar.TempFile (join [10%N] lines); MenuBar.OpenTextEdit]
        /\ List.length lines = (5 + 5 * List.length h)%nat
        /\ forall i timestamp text,
            nth_error h i = Some (timestamp, text) ->
            nth_error lines (5 + 5 * i) = Some (lit "[" ++ timestamp ++ lit "]")
            /\ nth_error lines (6 + 5 * i) = Some text).
Proof.
  gui_state g. cbn [MenuBar.core history].
  destruct hist as [|e h]; gui_eval.
  - repeat apply conj; try reflexivity. intros N. contradiction N. reflexivity.
  - repeat apply conj; try reflexivity; [discriminate|]. intros _.
    exists (MenuBar.textedit_lines today (e :: h)). split; [|split].
    + rewrite <- app_assoc. reflexivity.
    + unfold MenuBar.textedit_lines. rewrite textedit_fold.
      rewrite length_app, flat_map_entry_lines_length. cbn [List.length app]. lia.
    + intros i timestamp text N.
      unfold MenuBar.textedit_lines. rewrite textedit_fold. cbn [app].
      split.
      * change (5 + 5 * i)%nat with (S (S (S (S (S (5 * i)))))).
        cbn [nth_error].
        replace (5 * i)%nat with (5 * i + 0)%nat by lia.
        rewrite (@entry_lines_nth _ _ 0 _ N) by lia. reflexivity.
      * replace (6 + 5 * i)%nat with (S (S (S (S (S (5 * i + 1)))))) by lia.
        cbn [nth_error].
        rewrite (@entry_lines_nth _ _ 1 _ N) by lia. reflexivity.
Qed.

(** ** Clearing the history *)

(** X13: "Clear History" empties the history and rebuilds the menu, which
    then has its last three items only: no entry and no "Open in
    TextEdit".  The recording in progress, if any, goes on. *)
Theorem clear_history_resets_menu (g : MenuBar.Gui) :
  let g' := snd (MenuBar.clear_history g) in
  MenuBar.core g' = set_history [] (MenuBar.core g)
  /\ MenuBar.desktop g' = MenuBar.desktop g
  /\ MenuBar.app g'
     = match MenuBar.app g with
       | Some a =>
           Some (MenuBar.mkApp (MenuBar.title a)
                   [MenuBar.Item (lit "Clear History") MenuBar.Cb_clear_history;
                    MenuBar.separator;
                    MenuBar.Item (lit "Quit") MenuBar.Cb_quit_app])
       | None => None
       end.
Proof.
  gui_state g. destruct ap as [a|]; gui_eval.
  - erewrite update_menu_bound by reflexivity. gui_eval.
    repeat apply conj; reflexivity.
  - rewrite update_menu_unbound by reflexivity. gui_eval.
    repeat apply conj; reflexivity.
Qed.

(** ** The menu bar and the core model *)

Lemma str_eqb_recording : str_eqb (lit "recording") (lit "recording") = true.
Proof. reflexivity. Qed.

Lemma str_eqb_idle : str_eqb (lit "idle") (lit "recording") = false.
Proof. reflexivity. Qed.

(** Case analysis on what blocks the evaluation of a call of the menu-bar
    program: as [py_cases], and the two calls whose result is known by a
    lemma. *)
Ltac gui_cases :=
  gui_eval;
  repeat (match goal with
          | |- context [str_eqb (lit "recording") (lit "recording")] =>
              rewrite str_eqb_recording
          | |- context [str_eqb (lit "idle") (lit "recording")] =>
              rewrite str_eqb_idle
          | |- context [MenuBar.update_menu ?g] =>
              first [ erewrite (@update_menu_bound g) by reflexivity
                    | rewrite (@update_menu_unbound g) by reflexivity ]
          | |- context [if Qltb ?a ?b then _ else _] => destruct (Qltb a b) eqn:?
          | |- context [if sqrt_lt ?a ?b then _ else _] => destruct (sqrt_lt a b) eqn:?
          | |- context [match whisper ?e ?a with _ => _ end] => destruct (whisper e a) eqn:?
          | |- context [if truthy ?t then _ else _] => destruct (truthy t) eqn:?
          | |- context [if mic_ok ?e then _ else _] => destruct (mic_ok e) eqn:?
          end; gui_eval).

Lemma stop_recording_erasure env g :
  fst (MenuBar.stop_recording env g) = fst (DictatorApp.stop_recording env (MenuBar.core g))
  /\ MenuBar.core (snd (MenuBar.stop_recording env g))
     = snd (DictatorApp.stop_recording env (MenuBar.core g))
  /\ MenuBar.desktop (snd (MenuBar.stop_recording env g)) = MenuBar.desktop g.
Proof.
  gui_state g. destruct ap, rec, strm, data; gui_cases;
    repeat apply conj; reflexivity.
Qed.

Lemma on_press_erasure env key g :
  fst (MenuBar.on_press env key g)
  = fst (on_press DictatorApp.HOLD_KEY env key (MenuBar.core g))
  /\ MenuBar.core (snd (MenuBar.on_press env key g))
     = snd (on_press DictatorApp.HOLD_KEY env key (MenuBar.core g))
  /\ MenuBar.desktop (snd (MenuBar.on_press env key g)) = MenuBar.desktop g.
Proof.
  gui_state g. destruct ap, key, rec, tog, shift; gui_cases;
    repeat apply conj; reflexivity.
Qed.

Lemma Thread_run_erasure env g :
  MenuBar.core (MenuBar.Thread_run (MenuBar.stop_recording env) g)
  = Thread_run (DictatorApp.stop_recording env) (MenuBar.core g)
  /\ MenuBar.desktop (MenuBar.Thread_run (MenuBar.stop_recording env) g)
     = MenuBar.desktop g.
Proof.
  destruct (stop_recording_erasure env g) as [A [B C]].
  unfold MenuBar.Thread_run, Thread_run.
  destruct (MenuBar.stop_recording env g) as [r g'].
  destruct (DictatorApp.stop_recording env (MenuBar.core g)) as [r0 s0].
  cbn [fst snd] in A, B, C. subst r0 s0.
  destruct r; destruct g'; split; try reflexivity; exact C.
Qed.

Lemma run_threads_erasure env n g :
  MenuBar.core (MenuBar.run_threads (MenuBar.stop_recording env) n g)
  = run_threads (DictatorApp.stop_recording env) n (MenuBar.core g)
  /\ MenuBar.desktop (MenuBar.run_threads (MenuBar.stop_recording env) n g)
     = MenuBar.desktop g.
Proof.
  revert g. induction n as [|n IH]; intros g; [split; reflexivity|].
  cbn [MenuBar.run_threads run_threads].
  destruct (IH (MenuBar.Thread_run (MenuBar.stop_recording env)
                  (MenuBar.set_core (set_threads n (MenuBar.core g)) g))) as [A B].
  destruct (Thread_run_erasure env
              (MenuBar.set_core (set_threads n (MenuBar.core g)) g)) as [C D].
  rewrite A, B, C, D. destruct g. split; reflexivity.
Qed.

(** X14: on keys and audio the menu-bar program does to the flags, the
    buffer, the streams, the history and the sinks what the model without
    icon and menu does, and shows nothing on the desktop: [update_icon] and
    [update_menu] change the app and nothing else. *)
Theorem icon_and_menu_erased
        (env : Env) (today : str) (ev : MenuBar.UiEvent) (ev' : Event) (g : MenuBar.Gui) :
  MenuBar.to_event ev = Some ev' ->
  MenuBar.core (MenuBar.deliver env today ev g)
  = deliver dictator_app_py env ev' (MenuBar.core g)
  /\ MenuBar.desktop (MenuBar.deliver env today ev g) = MenuBar.desktop g.
Proof.
  intros E. unfold MenuBar.deliver, deliver, MenuBar.join_threads, join_threads.
  cbn [stop_recording].
  assert (H : MenuBar.core (MenuBar.handle env today ev g)
              = handle dictator_app_py env ev' (MenuBar.core g)
              /\ MenuBar.desktop (MenuBar.handle env today ev g) = MenuBar.desktop g).
  { destruct ev as [key | key | indata | i]; try discriminate E;
      injection E as <-; cbn [MenuBar.handle handle HOLD_KEY].
    - unfold MenuBar.Listener_callback, Listener_callback.
      destruct (on_press_erasure env key g) as [A [B C]].
      destruct (listener (MenuBar.core g)); [|split; reflexivity].
      destruct (MenuBar.on_press env key g) as [r g'].
      destruct (on_press DictatorApp.HOLD_KEY env key (MenuBar.core g)) as [r0 s0].
      cbn [fst snd] in A, B, C. subst r0 s0.
      destruct r; destruct g'; split; try reflexivity; exact C.
    - gui_state g. destruct lsn, key, tog, shift; gui_eval; split; reflexivity.
    - gui_state g. destruct act, rec; gui_eval; split; reflexivity. }
  destruct H as [H1 H2].
  destruct (run_threads_erasure env (threads (MenuBar.core (MenuBar.handle env today ev g)))
              (MenuBar.handle env today ev g)) as [A B].
  rewrite A, B, H1, H2. split; reflexivity.
Qed.

Lemma run_after_quit evs g :
  MenuBar.quit_called g = true -> MenuBar.run evs g = g.
Proof.
  intros Q. induction evs as [|x evs IH]; [reflexivity|].
  cbn [MenuBar.run fold_left]. unfold MenuBar.step at 2. rewrite Q. exact IH.
Qed.

(** X15: choosing an item of the menu other than "Quit" starts no recording
    and stops none: the flags, the buffer, the streams and the listener are
    as before, the engine is not called, and the history is as before or
    empty.  Choosing "Quit" ends the program: the listener and the streams
    end with it and no later event is handled. *)
Theorem click_leaves_recording_alone
        (env : Env) (today : str) (i : nat) (g : MenuBar.Gui) (a : MenuBar.App) :
  threads (MenuBar.core g) = O ->
  MenuBar.app g = Some a ->
  let g' := MenuBar.deliver env today (MenuBar.Click i) g in
  let c := MenuBar.core g in
  let c' := MenuBar.core g' in
  ((forall lbl, nth_error (MenuBar.menu a) i
                <> Some (MenuBar.Item lbl MenuBar.Cb_quit_app)) ->
   recording c' = recording c
   /\ toggle_mode c' = toggle_mode c
   /\ shift_held c' = shift_held c
   /\ audio_data c' = audio_data c
   /\ stream c' = stream c
   /\ active c' = active c
   /\ listener c' = listener c
   /\ engine_calls (emitted c c') = []
   /\ (history c' = history c \/ history c' = []))
  /\ (forall lbl,
        nth_error (MenuBar.menu a) i = Some (MenuBar.Item lbl MenuBar.Cb_quit_app) ->
        listener c' = false
        /\ active c' = []
        /\ emitted c c' = []
        /\ forall evs, MenuBar.run evs g' = g').
Proof.
  intros T A. gui_state g. destruct a as [t m].
  cbn [MenuBar.core MenuBar.app threads] in T, A. subst thr ap.
  cbn [MenuBar.menu]. split.
  - intros NQ. gui_eval.
    destruct (nth_error m i) as [[lbl [text| | |] | ] | ];
      try (contradiction (NQ lbl); reflexivity);
      gui_cases; try (destruct hist; gui_cases); log_eval;
      repeat apply conj; try reflexivity; (left; reflexivity) || (right; reflexivity).
  - intros lbl Q. gui_eval. rewrite Q. gui_eval. log_eval.
    repeat apply conj; try reflexivity.
    intros evs. apply run_after_quit.
    unfold MenuBar.quit_called. cbn [MenuBar.desktop].
    rewrite existsb_app. cbn. apply orb_true_r.
Qed.

(** ** The menu bar over a run *)

(** Settles the tests [_ =? _] on the number of copies. *)
Ltac decide_copies :=
  repeat match goal with
         | |- context [(?a =? ?b)%nat] =>
             first
               [ replace (a =? b)%nat with true
                   by (symmetry; apply Nat.eqb_eq; lia)
               | replace (a =? b)%nat with false
                   by (symmetry; apply Nat.eqb_neq; lia) ]
         end.

(** The part of [Gui_ok] about the app *)
Ltac close_ui :=
  first
    [ reflexivity
    | eexists; split;
      [ decide_copies; reflexivity
      | split;
        [ first [ left; reflexivity | right; repeat split; reflexivity ]
        | lia ] ] ].

(** The part of [Gui_ok] about the streams *)
Ltac close_streams :=
  first
    [ left; split; [reflexivity | first [discriminate | intros _; reflexivity]]
    | right; repeat split; eexists; split; reflexivity ].

Ltac close_gui :=
  repeat apply conj;
  first
    [ reflexivity
    | discriminate
    | intros _; reflexivity
    | close_streams
    | close_ui ].

Ltac eval_gui K :=
  gui_cases; cbn [filter]; rewrite ?Nat.eqb_refl; cbn [negb];
  rewrite ?result_events_app, ?length_app, <- ?K;
  cbn [result_events List.length app].

Lemma handle_mid env today ev ui g :
  Gui_ok ui g -> Gui_mid ui (MenuBar.handle env today ev g).
Proof.
  gui_state g.
  unfold Gui_mid, Gui_ok, Inv_listener, title_ok, icon_of, shown_menu, copies.
  cbn [MenuBar.core MenuBar.app threads toggle_mode recording active stream
       listener trace history].
  remember (List.length (result_events tr)) as k eqn:K.
  intros [[-> [T A]] U].
  destruct A as [[-> L] | [-> [-> [h [-> ->]]]]].
  1: destruct rec, lsn; try (specialize (L eq_refl); discriminate L); clear L.
  all: destruct tog; try (specialize (T eq_refl); discriminate T); clear T.
  all: destruct shift.
  all: destruct ui as [[stale n0]|];
       [ destruct U as [t [-> [Ht Hn]]];
         (destruct (Nat.eqb_spec k n0) as [E | E]; [subst n0|]);
         (destruct Ht as [-> | [-> [R ->]]]; try discriminate R)
       | subst ap ].
  all: destruct ev as [key | key | indata | i].
  all: try destruct key.
  all: gui_eval; rewrite ?nth_error_nil;
       try (match goal with
            | |- context [nth_error (MenuBar.menu_of ?hs) ?j] =>
                destruct (nth_error (MenuBar.menu_of hs) j)
                  as [[lbl [text| | |] | ] | ]
            end);
       gui_eval;
       try (match goal with
            | |- context [MenuBar.update_menu _] => destruct hist; gui_eval
            | |- context [MenuBar.textedit_lines _ ?hs] =>
                destruct hs; gui_eval
            end).
  all: eval_gui K.
  all: first [ left; solve [close_gui] | right; solve [close_gui] ].
Qed.

Lemma stop_thread_ok env ui g :
  Gui_ok ui g ->
  toggle_mode (MenuBar.core g) = false ->
  listener (MenuBar.core g) = true ->
  Gui_ok ui (MenuBar.Thread_run (MenuBar.stop_recording env) g).
Proof.
  gui_state g.
  unfold Gui_ok, Inv_listener, title_ok, icon_of, shown_menu, copies.
  cbn [MenuBar.core MenuBar.app threads toggle_mode recording active stream
       listener trace history].
  remember (List.length (result_events tr)) as k eqn:K.
  intros [[-> [_ A]] U] -> ->.
  destruct A as [[-> L] | [-> [_ [h [-> ->]]]]].
  1: destruct rec; try (specialize (L eq_refl); discriminate L); clear L.
  2: destruct data.
  all: destruct ui as [[stale n0]|];
       [ destruct U as [t [-> [Ht Hn]]];
         (destruct (Nat.eqb_spec k n0) as [E | E]; [subst n0|]);
         (destruct Ht as [-> | [-> [R ->]]]; try discriminate R)
       | subst ap ].
  all: eval_gui K.
  all: solve [close_gui].
Qed.

Lemma Gui_ok_deliver env today ev ui g :
  Gui_ok ui g -> Gui_ok ui (MenuBar.deliver env today ev g).
Proof.
  intros G. unfold MenuBar.deliver, MenuBar.join_threads.
  destruct (handle_mid env today ev G) as [[T G'] | [T [Tg [L G']]]]; rewrite T.
  - exact G'.
  - cbn [MenuBar.run_threads]. apply stop_thread_ok.
    + exact G'.
    + destruct (MenuBar.handle env today ev g) as [[] ? ?]. exact Tg.
    + destruct (MenuBar.handle env today ev g) as [[] ? ?]. exact L.
Qed.

Lemma Gui_ok_step ui g x : Gui_ok ui g -> Gui_ok ui (MenuBar.step g x).
Proof.
  intros G. unfold MenuBar.step.
  destruct (MenuBar.quit_called g); [exact G | apply Gui_ok_deliver, G].
Qed.

Lemma Gui_ok_run ui evs g : Gui_ok ui g -> Gui_ok ui (MenuBar.run evs g).
Proof.
  revert g. induction evs as [|x evs IH]; intros g G; [exact G|].
  cbn [MenuBar.run fold_left]. apply IH, Gui_ok_step, G.
Qed.

Lemma Gui_ok_loaded : Gui_ok None MenuBar.loaded.
Proof.
  unfold Gui_ok, Inv_listener. cbn.
  repeat split; try discriminate. left. split; [reflexivity | discriminate].
Qed.

(** [app = DictatorApp()] binds an app with the title "mic" and no item. *)
Lemma Gui_ok_main_app g :
  Gui_ok None g ->
  Gui_ok (Some (recording (MenuBar.core g), copies (MenuBar.core g)))
         (snd (MenuBar.main_app g)).
Proof.
  gui_state g.
  unfold Gui_ok, Inv_listener, title_ok, icon_of, shown_menu, copies.
  cbn [MenuBar.core MenuBar.app threads toggle_mode recording active stream
       listener trace history].
  intros [I ->]. gui_cases. split; [exact I|].
  eexists. split; [rewrite Nat.eqb_refl; reflexivity|].
  split; [|apply Nat.le_refl].
  destruct rec; [right; repeat apply conj; reflexivity | left; reflexivity].
Qed.

Lemma Gui_ok_launch before :
  Gui_ok (Some (recording (MenuBar.core (MenuBar.run before MenuBar.loaded)),
                copies (MenuBar.core (MenuBar.run before MenuBar.loaded))))
         (MenuBar.launch before).
Proof.
  apply Gui_ok_main_app, Gui_ok_run, Gui_ok_loaded.
Qed.

Lemma Gui_ok_not_stale stale n0 g :
  Gui_ok (Some (stale, n0)) g -> recording (MenuBar.core g) = false ->
  Gui_ok (Some (false, n0)) g.
Proof.
  intros [I [t [A [T N]]]] R. split; [exact I|].
  exists t. split; [exact A|]. split; [|exact N].
  destruct T as [T | [_ [R' _]]]; [left; exact T | congruence].
Qed.

(** X16: in a run where every stop thread runs to its end before the next
    event is handled, and [main] binds the app after the events [before]
    that the listener, started first, has already handled: from then on,
    whatever the events, the title in the menu bar is "rec" while
    [recording] is set and "mic" otherwise, but for one case: a recording
    that was on when the app was bound keeps the title "mic" the app was
    made with.  Once [recording] is off, that case is over for the rest of
    the run. *)
Theorem icon_follows_recording
        (before after : list (Env * str * MenuBar.UiEvent)) :
  let g0 := MenuBar.run before MenuBar.loaded in
  let g := MenuBar.run after (MenuBar.launch before) in
  (exists a,
      MenuBar.app g = Some a
      /\ (MenuBar.title a = icon_of (MenuBar.core g)
          \/ (recording (MenuBar.core g0) = true
              /\ recording (MenuBar.core g) = true
              /\ MenuBar.title a = lit "mic")))
  /\ (recording (MenuBar.core g) = false ->
      forall later,
        exists a,
          MenuBar.app (MenuBar.run later g) = Some a
          /\ MenuBar.title a = icon_of (MenuBar.core (MenuBar.run later g))).
Proof.
  intros g0 g.
  pose proof (Gui_ok_run after (Gui_ok_launch before)) as G.
  fold g0 g in G. split.
  - destruct G as [_ [t [A [T _]]]]. eexists. split; [exact A|].
    cbn [MenuBar.title]. destruct T as [T | [S [R T]]].
    + left. exact T.
    + right. repeat apply conj; assumption.
  - intros R later.
    destruct (Gui_ok_run later (Gui_ok_not_stale G R)) as [_ [t [A [T _]]]].
    eexists. split; [exact A|]. cbn [MenuBar.title].
    destruct T as [T | [S _]]; [exact T | discriminate S].
Qed.

(** The exception happens: the hold key goes down before [main] has bound
    the app, and the recording runs under the title "mic". *)
Lemma icon_stale_after_early_press :
  let g := MenuBar.launch [(studio, lit "November 04, 2026",
                            MenuBar.KeyDown Key_ctrl)] in
  recording (MenuBar.core g) = true
  /\ MenuBar.app g = Some (MenuBar.mkApp (lit "mic") []).
Proof. vm_compute. split; reflexivity. Qed.

(** X17: in a run where every stop thread runs to its end before the next
    event is handled, and [main] binds the app after the events [before]:
    [DictatorApp()] calls [update_menu] while the global [app] is not bound
    yet, so the app starts with a menu that has no item, not even "Quit",
    whatever the history holds by then.  The menu stays so until the next
    text is put on the clipboard; from then on, whatever the events, the
    menu is the one of the history as it is. *)
Theorem menu_follows_history
        (before after : list (Env * str * MenuBar.UiEvent)) :
  let g0 := MenuBar.run before MenuBar.loaded in
  let g := MenuBar.run after (MenuBar.launch before) in
  exists a,
    MenuBar.app g = Some a
    /\ (copies (MenuBar.core g0) <= copies (MenuBar.core g))%nat
    /\ MenuBar.menu a
       = (if (copies (MenuBar.core g) =? copies (MenuBar.core g0))%nat
          then []
          else MenuBar.menu_of (history (MenuBar.core g))).
Proof.
  intros g0 g.
  destruct (Gui_ok_run after (Gui_ok_launch before)) as [_ [t [A [_ N]]]].
  fold g0 g in A, N.
  eexists. split; [exact A|]. split; [exact N | reflexivity].
Qed.

(** The menu without an item while the history has an entry: one text is
    taken before [main] has bound the app. *)
Lemma menu_empty_with_history :
  let e := (studio, lit "November 04, 2026") in
  let g := MenuBar.launch [(e, MenuBar.KeyDown Key_ctrl);
                           (e, MenuBar.Audio (loud (ms 1000)));
                           (e, MenuBar.KeyUp Key_ctrl)] in
  MenuBar.app g = Some (MenuBar.mkApp (lit "mic") [])
  /\ List.length (history (MenuBar.core g)) = 1%nat.
Proof. vm_compute. split; reflexivity. Qed.

(** * Instances of the further properties *)

Lemma stop_threads_only_fail_in_engine_witness :
  In (ThreadExcepthook EngineError)
     (trace (run dictator_py (one_take broken_engine) initial))
  /\ EngineError = EngineError.
Proof.
  assert (H : In (ThreadExcepthook EngineError)
                 (trace (run dictator_py (one_take broken_engine) initial))).
  { vm_compute. do 4 right. left. reflexivity. }
  split; [exact H|].
  exact (@stop_threads_only_fail_in_engine dictator_py (one_take broken_engine) EngineError H).
Defined.

Lemma working_microphone_witness :
  Forall (fun x => mic_ok (fst x) = true) (one_take studio)
  /\ listener (run dictator_py (one_take studio) initial) = true.
Proof.
  assert (H : Forall (fun x => mic_ok (fst x) = true) (one_take studio))
    by (repeat constructor).
  split; [exact H|].
  exact (proj1 (@working_microphone dictator_py (one_take studio) H)).
Defined.

Lemma momentary_capture_witness :
  recording initial = false /\ toggle_mode initial = false
  /\ shift_held initial = false /\ listener initial = true
  /\ threads initial = O /\ active initial = [] /\ mic_ok studio = true
  /\ engine_calls
       (emitted initial
          (run dictator_py
             ((studio, Press Key_alt) :: frames studio [[1]; [0; 1]]
              ++ [(studio, Release Key_alt)]) initial))
     = [[1; 0; 1]].
Proof.
  do 7 (split; [reflexivity|]).
  exact (proj1 (@momentary_capture dictator_py studio initial [[1]; [0; 1]]
                  eq_refl eq_refl eq_refl eq_refl eq_refl eq_refl eq_refl)).
Defined.

Lemma continuous_capture_witness :
  recording initial = false /\ toggle_mode initial = false
  /\ listener initial = true /\ threads initial = O /\ active initial = []
  /\ mic_ok studio = true
  /\ engine_calls
       (emitted initial
          (run dictator_py
             ((studio, Press Key_shift) :: (studio, Press Key_alt)
              :: frames studio [[1]]
              ++ (studio, Release Key_alt) :: frames studio [[0; 1]]
              ++ [(studio, Press Key_alt)]) initial))
     = [[1; 0; 1]].
Proof.
  do 6 (split; [reflexivity|]).
  exact (proj1 (@continuous_capture dictator_py studio initial [[1]] [[0; 1]]
                  eq_refl eq_refl eq_refl eq_refl eq_refl eq_refl)).
Defined.

Lemma other_keys_ignored_witness :
  Key_shift <> HOLD_KEY dictator_py /\ threads initial = O
  /\ deliver dictator_py studio (Press Key_shift) initial
     = set_shift_held true initial.
Proof.
  assert (K : Key_shift <> HOLD_KEY dictator_py) by discriminate.
  assert (T : threads initial = O) by reflexivity.
  split; [exact K|]. split; [exact T|].
  exact (proj1 (@other_keys_ignored dictator_py studio Key_shift initial K T)).
Defined.

Lemma update_menu_layout_witness :
  MenuBar.app one_entry = Some (MenuBar.mkApp (lit "mic") [])
  /\ exists m,
       MenuBar.app (snd (MenuBar.update_menu one_entry))
       = Some (MenuBar.mkApp (lit "mic") m)
       /\ List.length m = 6%nat.
Proof.
  assert (A : MenuBar.app one_entry = Some (MenuBar.mkApp (lit "mic") []))
    by reflexivity.
  split; [exact A|].
  destruct (@update_menu_layout one_entry _ A) as [m [B [_ [_ [_ [_ [L _]]]]]]].
  exists m. split; [exact B | exact L].
Defined.

Lemma menu_item_copies_whole_text_witness :
  MenuBar.app one_entry = Some (MenuBar.mkApp (lit "mic") [])
  /\ threads (MenuBar.core one_entry) = O
  /\ nth_error (history (MenuBar.core one_entry)) 0
     = Some (lit "09:41 AM", lit "hello world")
  /\ emitted (MenuBar.core (snd (MenuBar.update_menu one_entry)))
       (MenuBar.core
          (MenuBar.deliver studio (lit "November 04, 2026") (MenuBar.Click 0)
             (snd (MenuBar.update_menu one_entry))))
     = [ClipboardCopy (lit "hello world")].
Proof.
  assert (A : MenuBar.app one_entry = Some (MenuBar.mkApp (lit "mic") []))
    by reflexivity.
  assert (T : threads (MenuBar.core one_entry) = O) by reflexivity.
  assert (N : nth_error (history (MenuBar.core one_entry)) 0
              = Some (lit "09:41 AM", lit "hello world")) by reflexivity.
  do 3 (split; [assumption|]).
  exact (proj1 (proj2 (@menu_item_copies_whole_text studio
                         (lit "November 04, 2026") one_entry _ 0 _ _ A T N))).
Defined.

Lemma icon_and_menu_erased_witness :
  MenuBar.to_event (MenuBar.KeyDown Key_ctrl) = Some (Press Key_ctrl)
  /\ recording
       (MenuBar.core
          (MenuBar.deliver studio (lit "November 04, 2026")
             (MenuBar.KeyDown Key_ctrl) (MenuBar.launch [])))
     = true.
Proof.
  assert (E : MenuBar.to_event (MenuBar.KeyDown Key_ctrl) = Some (Press Key_ctrl))
    by reflexivity.
  split; [exact E|].
  rewrite (proj1 (@icon_and_menu_erased studio (lit "November 04, 2026")
                    _ _ (MenuBar.launch []) E)).
  reflexivity.
Defined.

Lemma click_leaves_recording_alone_witness :
  threads (MenuBar.core no_entry) = O
  /\ MenuBar.app no_entry = Some (MenuBar.mkApp (lit "mic") (MenuBar.menu_of []))
  /\ listener
       (MenuBar.core
          (MenuBar.deliver studio (lit "November 04, 2026") (MenuBar.Click 2)
             no_entry))
     = false.
Proof.
  assert (T : threads (MenuBar.core no_entry) = O) by reflexivity.
  assert (A : MenuBar.app no_entry
              = Some (MenuBar.mkApp (lit "mic") (MenuBar.menu_of [])))
    by reflexivity.
  split; [exact T|]. split; [exact A|].
  exact (proj1 (proj2 (@click_leaves_recording_alone studio
                         (lit "November 04, 2026") 2 no_entry _ T A)
                  (lit "Quit") eq_refl)).
Defined.
